(** * registerSubdomain.py: a model of the script and its properties

    The script reads five settings from the process environment, takes the
    subdomain from [sys.argv[1]], builds an XML-RPC proxy and invokes two
    remote methods with a pause in between.  It is one straight-line
    procedure, [main], run by the module when it is executed as a script.

    The model is a shallow embedding: every source statement of [main] is one
    computation in a small monad that threads the interpreter state (the
    process environment, the local variables of [main], the trace of
    observable events) and carries Python exceptions.  What lies outside the
    script (the command line, the [.env] file, the builtins namespace, the
    XML-RPC library's view of a URI and the remote server) is gathered in a
    read-only [world]. *)

From Stdlib Require Import ZArith.
From stdpp Require Import base option list strings gmap fin_maps.

Local Open Scope string_scope.
Local Open Scope Z_scope.
Set Warnings "-register-all".

(** ** Values *)

(** The Python values the script can hold.  [VObject] stands for the module
    and function objects bound by the import statements and by [def main];
    [VProxy] is an [xmlrpc.client.ServerProxy] instance and [VMethod] the
    callable it hands out for a remote method name. *)
Inductive value : Type :=
  | VNone
  | VBool (b : bool)
  | VInt (z : Z)
  | VStr (s : string)
  | VDict (d : gmap string value)
  | VProxy (uri : string) (encoding : string)
  | VMethod (uri : string) (name : string)
  | VObject (name : string).

(** Exceptions that can leave a statement of [main]. *)
Inductive exn : Type :=
  | IndexError                      (* list index out of range *)
  | NameError (x : string)          (* name 'x' is not defined *)
  | UnboundLocalError (x : string)
  | AttributeError (attr : string)
  | TypeError
  | ValueError
  | OSError                         (* unsupported XML-RPC protocol, socket errors *)
  | ProtocolError (errcode : Z)     (* HTTP-level failure *)
  | Fault (code : Z) (msg : string) (* XML-RPC fault sent by the server *)
  | ResponseError                   (* malformed response *)
  | Other (cls : string).           (* any other class a library call raises *)

(** Observable events: a remote method invocation through a proxy, and a
    call of [time.sleep]. *)
Inductive event : Type :=
  | ECall (uri : string) (method : string) (args : list value)
  | ESleep (seconds : Z).

(** ** The world and the interpreter state *)

Record world : Type := World {
  (** [os.environ] when the process starts *)
  w_environ : gmap string string;
  (** the assignments [load_dotenv] finds in a [.env] file (empty if none) *)
  w_dotenv : gmap string string;
  (** [sys.argv] *)
  w_argv : list string;
  (** the builtins namespace, searched after the module's globals *)
  w_builtins : gmap string value;
  (** [urllib.parse.urlsplit(uri)]: the scheme of the result, or the
      exception the call raises *)
  w_scheme : string → exn + string;
  (** outcome of a remote invocation, given the events so far *)
  w_remote : list event → string → string → list value → exn + value
}.

Record state : Type := State {
  st_environ : gmap string string;
  st_locals : gmap string value;
  st_trace : list event
}.

Definition initial (w : world) : state :=
  {| st_environ := w_environ w; st_locals := ∅; st_trace := [] |}.

(** ** The monad: reader of the world, state, exceptions *)

Inductive result (A : Type) : Type :=
  | Normal (a : A)
  | Raise (e : exn).
Arguments Normal {A} a.
Arguments Raise {A} e.

Definition M (A : Type) : Type := world → state → state * result A.

#[export] Instance M_ret : MRet M := λ A a _ s, (s, Normal a).

Definition raise {A} (e : exn) : M A := λ _ s, (s, Raise e).

(** Sequencing: an exception raised by the first computation is the outcome
    of the whole, in the state the first computation left. *)
#[export] Instance M_bind : MBind M := λ A B k c w s,
  match c w s with
  | (s', Normal a) => k a w s'
  | (s', Raise e) => (s', Raise e)
  end.

Definition ask : M world := λ w s, (s, Normal w).
Definition get : M state := λ _ s, (s, Normal s).

Definition modify (f : state → state) : M unit := λ _ s, (f s, Normal tt).

(** The three ways a statement changes the interpreter state. *)
Definition set_environ (env : gmap string string) (s : state) : state :=
  {| st_environ := env; st_locals := st_locals s; st_trace := st_trace s |}.

Definition set_local (x : string) (v : value) (s : state) : state :=
  {| st_environ := st_environ s; st_locals := <[x := v]> (st_locals s);
     st_trace := st_trace s |}.

Definition add_event (e : event) (s : state) : state :=
  {| st_environ := st_environ s; st_locals := st_locals s;
     st_trace := st_trace s ++ [e] |}.

Definition emit (e : event) : M unit := modify (add_event e).

(** ** Names *)

(** The module's global namespace when [main] is called: [__name__] and the
    bindings made by lines 4-8 ([import], [from ... import]) and line 10
    ([def main]), in source order. *)
Definition module_globals : gmap string value :=
  <["main" := VObject "function main"]>
  (<["load_dotenv" := VObject "function load_dotenv"]>
  (<["os" := VObject "module os"]>
  (<["xmlrpc" := VObject "module xmlrpc"]>
  (<["time" := VObject "module time"]>
  (<["sys" := VObject "module sys"]>
  {["__name__" := VStr "__main__"]}))))).

(** A name assigned in [main] is a local of [main]. *)
Definition store_fast (x : string) (v : value) : M unit :=
  modify (set_local x v).

Definition load_fast (x : string) : M value :=
  s ← get;
  match st_locals s !! x with
  | Some v => mret v
  | None => raise (UnboundLocalError x)
  end.

(** A name read but never assigned in [main] is looked up in the module's
    globals, then in the builtins. *)
Definition load_global (x : string) : M value :=
  w ← ask;
  match module_globals !! x with
  | Some v => mret v
  | None =>
      match w_builtins w !! x with
      | Some v => mret v
      | None => raise (NameError x)
      end
  end.

(** ** Library operations *)

(** A library call that either raises or returns. *)
Definition lift {A} (r : exn + A) : M A :=
  match r with
  | inl e => raise e
  | inr a => mret a
  end.

(** [load_dotenv()] with its defaults: a variable already present in
    [os.environ] keeps its value; the call reports whether the file defined
    anything. *)
Definition load_dotenv : M value :=
  w ← ask;
  s ← get;
  modify (set_environ (st_environ s ∪ w_dotenv w));;
  mret (VBool (negb (bool_decide (w_dotenv w = ∅)))).

(** [os.getenv(key)]: the value, or [None] when the variable is unset. *)
Definition getenv_value (env : gmap string string) (key : string) : value :=
  match env !! key with
  | Some v => VStr v
  | None => VNone
  end.

Definition os_getenv (key : string) : M value :=
  s ← get; mret (getenv_value (st_environ s) key).

(** [sys.argv] and the subscript of a list by a non-negative constant. *)
Definition sys_argv : M (list string) :=
  w ← ask; mret (w_argv w).

Definition subscript (l : list string) (i : nat) : M value :=
  match l !! i with
  | Some a => mret (VStr a)
  | None => raise IndexError
  end.

(** [xmlrpc.client.ServerProxy(uri = .., encoding = ..)].  The constructor
    calls [urllib.parse.urlsplit] on the URI, lets an exception of that
    call through (a [ValueError] for a malformed netloc), and then accepts
    the schemes http and https only; [None] splits to an empty scheme.  No
    connection is opened. *)
Definition ServerProxy_init (urlsplit : string → exn + string) (uri : value)
    (encoding : string) : exn + value :=
  match uri with
  | VStr u =>
      match urlsplit u with
      | inl e => inl e
      | inr scheme =>
          if bool_decide (scheme ∈ ["http"; "https"])
          then inr (VProxy u encoding)
          else inl OSError
      end
  | VNone => inl OSError
  | _ => inl TypeError
  end.

Definition ServerProxy (uri : value) (encoding : string) : M value :=
  w ← ask; lift (ServerProxy_init (w_scheme w) uri encoding).

(** [obj.attr] for a proxy: any method name yields a remote method. *)
Definition getattr (obj : value) (attr : string) : M value :=
  match obj with
  | VProxy uri _ => mret (VMethod uri attr)
  | _ => raise (AttributeError attr)
  end.

(** [f(args)] for a remote method: the invocation is recorded, then the
    library and the server decide how it ends. *)
Definition call (f : value) (args : list value) : M value :=
  match f with
  | VMethod uri name =>
      w ← ask;
      s ← get;
      emit (ECall uri name args);;
      lift (w_remote w (st_trace s) uri name args)
  | _ => raise TypeError
  end.

(** [time.sleep(seconds)] *)
Definition time_sleep (seconds : Z) : M value :=
  if bool_decide (seconds < 0) then raise ValueError
  else emit (ESleep seconds);; mret VNone.

(** ** The statements of [main] *)

(** line 11: [load_dotenv()] *)
Definition stmt_load_dotenv : M unit :=
  load_dotenv;; mret tt.

(** lines 13-17: [x = os.getenv(key)] *)
Definition stmt_getenv (x key : string) : M unit :=
  v ← os_getenv key; store_fast x v.

(** line 19: [subdomain = sys.argv[1]] *)
Definition stmt_subdomain : M unit :=
  argv ← sys_argv;
  v ← subscript argv 1;
  store_fast "subdomain" v.

(** line 21: [client = xmlrpc.client.ServerProxy(uri = global_dns_uri, encoding = 'utf-8')] *)
Definition stmt_client : M unit :=
  uri ← load_fast "global_dns_uri";
  c ← ServerProxy uri "utf-8";
  store_fast "client" c.

(** line 22: [response = client.addSubdomain(global_api_username, global_api_password, domain, subdomain)] *)
Definition stmt_addSubdomain : M unit :=
  c ← load_fast "client";
  f ← getattr c "addSubdomain";
  a1 ← load_fast "global_api_username";
  a2 ← load_fast "global_api_password";
  a3 ← load_global "domain";
  a4 ← load_fast "subdomain";
  r ← call f [a1; a2; a3; a4];
  store_fast "response" r.

(** line 24: [time.sleep(1)] *)
Definition stmt_sleep : M unit :=
  time_sleep 1;; mret tt.

(** lines 25-30: the dictionary display bound to [record_obj] *)
Definition record_obj (rdata : value) : gmap string value :=
  <["record_id" := VInt 10]>
  (<["rdata" := rdata]>
  (<["priority" := VInt 1]>
  (<["ttl" := VInt 3600]>
  (<["type" := VStr "A"]> ∅)))).

Definition stmt_record_obj : M unit :=
  ip ← load_fast "school_ip_address";
  store_fast "record_obj" (VDict (record_obj ip)).

(** line 31: [response = client.addZoneRecord(global_api_username, global_api_password, domain, subdomain, record_obj)] *)
Definition stmt_addZoneRecord : M unit :=
  c ← load_fast "client";
  f ← getattr c "addZoneRecord";
  a1 ← load_fast "global_api_username";
  a2 ← load_fast "global_api_password";
  a3 ← load_global "domain";
  a4 ← load_fast "subdomain";
  a5 ← load_fast "record_obj";
  r ← call f [a1; a2; a3; a4; a5];
  store_fast "response" r.

(** ** [main] *)

(** A block runs its statements in order; nothing in it catches. *)
Fixpoint block (stmts : list (M unit)) : M unit :=
  match stmts with
  | [] => mret tt
  | c :: cs => c;; block cs
  end.

Definition main_body : list (M unit) :=
  [ stmt_load_dotenv;
    stmt_getenv "global_api_username" "DNS_API_USER";
    stmt_getenv "global_api_password" "DNS_API_PASS";
    stmt_getenv "school_ip_address" "SCHOOL_IP_ADDRESS";
    stmt_getenv "global_dns_uri" "DNS_API_URI";
    stmt_getenv "domain_suffix" "DOMAIN_SUFFIX";
    stmt_subdomain;
    stmt_client;
    stmt_addSubdomain;
    stmt_sleep;
    stmt_record_obj;
    stmt_addZoneRecord ].

Definition main : M unit := block main_body.

(** lines 34-35: [if __name__ == '__main__': main()] *)
Definition script : M unit :=
  n ← load_global "__name__";
  match n with
  | VStr s => if bool_decide (s = "__main__") then main else mret tt
  | _ => mret tt
  end.

(** Running the script as a process: the final interpreter state and how
    the module's code ended. *)
Definition run (w : world) : state * result unit := script w (initial w).

(** An exception that leaves the module ends the process with status 1. *)
Definition exit_status (r : result unit) : Z :=
  match r with
  | Normal _ => 0
  | Raise _ => 1
  end.

(** * Derived notions *)

(** [reaches w n s]: in world [w] the first [n] statements of [main]
    complete without raising and leave the interpreter in state [s], so
    that control stands before statement [n] (counted from 0). *)
Definition reaches (w : world) (n : nat) (s : state) : Prop :=
  block (take n main_body) w (initial w) = (s, Normal tt).

(** ** The straight path through [main] *)

(** The environment after [load_dotenv()], and a setting read from it. *)
Definition effective_environ (w : world) : gmap string string :=
  w_environ w ∪ w_dotenv w.

Definition setting (w : world) (key : string) : value :=
  getenv_value (effective_environ w) key.

(** The state after lines 11-17. *)
Definition configured_state (w : world) : state :=
  set_local "domain_suffix" (setting w "DOMAIN_SUFFIX")
  (set_local "global_dns_uri" (setting w "DNS_API_URI")
  (set_local "school_ip_address" (setting w "SCHOOL_IP_ADDRESS")
  (set_local "global_api_password" (setting w "DNS_API_PASS")
  (set_local "global_api_username" (setting w "DNS_API_USER")
  (set_environ (effective_environ w) (initial w)))))).

(** ... after line 19 ... *)
Definition argument_state (w : world) (sub : string) : state :=
  set_local "subdomain" (VStr sub) (configured_state w).

(** ... and after line 21. *)
Definition client_state (w : world) (sub u : string) : state :=
  set_local "client" (VProxy u "utf-8") (argument_state w sub).

(** The two invocations, with [d] the value the name [domain] evaluates
    to. *)
Definition first_call (w : world) (sub u : string) (d : value) : event :=
  ECall u "addSubdomain"
    [setting w "DNS_API_USER"; setting w "DNS_API_PASS"; d; VStr sub].

Definition second_call (w : world) (sub u : string) (d : value) : event :=
  ECall u "addZoneRecord"
    [setting w "DNS_API_USER"; setting w "DNS_API_PASS"; d; VStr sub;
     VDict (record_obj (setting w "SCHOOL_IP_ADDRESS"))].

(** The state in which line 31 sends its request: line 22 returned [r1],
    the pause is over and the record is built. *)
Definition record_state (w : world) (sub u : string) (d r1 : value) : state :=
  set_local "record_obj" (VDict (record_obj (setting w "SCHOOL_IP_ADDRESS")))
  (add_event (ESleep 1)
  (set_local "response" r1
  (add_event (first_call w sub u d) (client_state w sub u)))).

(** How a run of [main] can end. *)
Inductive outcome (w : world) : state → result unit → Prop :=
  | no_argument :
      w_argv w !! 1%nat = None →
      outcome w (configured_state w) (Raise IndexError)
  | proxy_rejected sub e :
      w_argv w !! 1%nat = Some sub →
      ServerProxy_init (w_scheme w) (setting w "DNS_API_URI") "utf-8" = inl e →
      outcome w (argument_state w sub) (Raise e)
  | domain_undefined sub u :
      w_argv w !! 1%nat = Some sub →
      ServerProxy_init (w_scheme w) (setting w "DNS_API_URI") "utf-8"
        = inr (VProxy u "utf-8") →
      w_builtins w !! "domain" = None →
      outcome w (client_state w sub u) (Raise (NameError "domain"))
  | first_call_fails sub u d e :
      w_argv w !! 1%nat = Some sub →
      ServerProxy_init (w_scheme w) (setting w "DNS_API_URI") "utf-8"
        = inr (VProxy u "utf-8") →
      w_builtins w !! "domain" = Some d →
      w_remote w [] u "addSubdomain"
        [setting w "DNS_API_USER"; setting w "DNS_API_PASS"; d; VStr sub]
        = inl e →
      outcome w (add_event (first_call w sub u d) (client_state w sub u))
        (Raise e)
  | second_call_fails sub u d r1 e :
      w_argv w !! 1%nat = Some sub →
      ServerProxy_init (w_scheme w) (setting w "DNS_API_URI") "utf-8"
        = inr (VProxy u "utf-8") →
      w_builtins w !! "domain" = Some d →
      w_remote w [] u "addSubdomain"
        [setting w "DNS_API_USER"; setting w "DNS_API_PASS"; d; VStr sub]
        = inr r1 →
      w_remote w [first_call w sub u d; ESleep 1] u "addZoneRecord"
        [setting w "DNS_API_USER"; setting w "DNS_API_PASS"; d; VStr sub;
         VDict (record_obj (setting w "SCHOOL_IP_ADDRESS"))]
        = inl e →
      outcome w (add_event (second_call w sub u d) (record_state w sub u d r1))
        (Raise e)
  | both_calls_return sub u d r1 r2 :
      w_argv w !! 1%nat = Some sub →
      ServerProxy_init (w_scheme w) (setting w "DNS_API_URI") "utf-8"
        = inr (VProxy u "utf-8") →
      w_builtins w !! "domain" = Some d →
      w_remote w [] u "addSubdomain"
        [setting w "DNS_API_USER"; setting w "DNS_API_PASS"; d; VStr sub]
        = inr r1 →
      w_remote w [first_call w sub u d; ESleep 1] u "addZoneRecord"
        [setting w "DNS_API_USER"; setting w "DNS_API_PASS"; d; VStr sub;
         VDict (record_obj (setting w "SCHOOL_IP_ADDRESS"))]
        = inr r2 →
      outcome w
        (set_local "response" r2
           (add_event (second_call w sub u d) (record_state w sub u d r1)))
        (Normal tt).

(** ** Settings and command lines *)

(** The local names of lines 13-17 and the variables they are read from. *)
Definition settings_table : list (string * string) :=
  [ ("global_api_username", "DNS_API_USER");
    ("global_api_password", "DNS_API_PASS");
    ("school_ip_address", "SCHOOL_IP_ADDRESS");
    ("global_dns_uri", "DNS_API_URI");
    ("domain_suffix", "DOMAIN_SUFFIX") ].

(** The same invocation with another command line. *)
Definition with_argv (argv : list string) (w : world) : world :=
  {| w_environ := w_environ w; w_dotenv := w_dotenv w; w_argv := argv;
     w_builtins := w_builtins w; w_scheme := w_scheme w;
     w_remote := w_remote w |}.

(** ** Example worlds *)

Definition example_environ : gmap string string :=
  {[ "DNS_API_USER" := "admin";
     "DNS_API_PASS" := "secret";
     "SCHOOL_IP_ADDRESS" := "192.0.2.10";
     "DNS_API_URI" := "https://dns.example.net/xmlrpc";
     "DOMAIN_SUFFIX" := "school.example" ]}.

(** [urlsplit] on the URIs the examples use: a bracket without its
    partner is refused, otherwise the scheme is returned. *)
Definition contains (c u : string) : bool :=
  match String.index 0 c u with
  | Some _ => true
  | None => false
  end.

Definition example_scheme (u : string) : exn + string :=
  if xorb (contains "[" u) (contains "]" u) then inl ValueError
  else if String.prefix "https:" u then inr "https"
  else if String.prefix "http:" u then inr "http"
  else if String.prefix "ftp:" u then inr "ftp"
  else inr "".

(** A server that answers every request, one that is unreachable, and one
    whose answer to [addZoneRecord] cannot be parsed. *)
Definition accepting_server
    (_ : list event) (_ _ : string) (_ : list value) : exn + value :=
  inr (VBool true).

Definition unreachable_server
    (_ : list event) (_ _ : string) (_ : list value) : exn + value :=
  inl OSError.

Definition garbling_server
    (_ : list event) (_ method : string) (_ : list value) : exn + value :=
  if String.eqb method "addZoneRecord" then inl ResponseError
  else inr (VBool true).

(** A stock interpreter: nothing named [domain] among the builtins. *)
Definition stock_world (env : gmap string string) (argv : list string)
    : world :=
  {| w_environ := env; w_dotenv := ∅; w_argv := argv; w_builtins := ∅;
     w_scheme := example_scheme; w_remote := accepting_server |}.

(** An interpreter whose host has put a [domain] among the builtins before
    running the script. *)
Definition hosted_world (env : gmap string string) (argv : list string)
    (remote : list event → string → string → list value → exn + value)
    : world :=
  {| w_environ := env; w_dotenv := ∅; w_argv := argv;
     w_builtins := {[ "domain" := VStr "school.example" ]};
     w_scheme := example_scheme; w_remote := remote |}.

(** ** Worlds that differ in one respect *)

Definition with_environ (env : gmap string string) (w : world) : world :=
  {| w_environ := env; w_dotenv := w_dotenv w; w_argv := w_argv w;
     w_builtins := w_builtins w; w_scheme := w_scheme w;
     w_remote := w_remote w |}.

Definition with_remote
    (remote : list event → string → string → list value → exn + value)
    (w : world) : world :=
  {| w_environ := w_environ w; w_dotenv := w_dotenv w; w_argv := w_argv w;
     w_builtins := w_builtins w; w_scheme := w_scheme w;
     w_remote := remote |}.

(** Two ends of an invocation are of the same kind when both are the same
    exception or both are answers, whatever the answers are. *)
Definition same_kind (x y : exn + value) : Prop :=
  match x, y with
  | inl e, inl e' => e = e'
  | inr _, inr _ => True
  | _, _ => False
  end.

(** [agree w w']: the two worlds give the same [sys.argv[1]], the same
    builtin [domain], the same four settings used after line 17, the same
    URI schemes, ends of the same kind for [addSubdomain] and the same ends
    for [addZoneRecord]. *)
Definition agree (w w' : world) : Prop :=
  w_argv w' !! 1%nat = w_argv w !! 1%nat ∧
  w_builtins w' !! "domain" = w_builtins w !! "domain" ∧
  setting w' "DNS_API_USER" = setting w "DNS_API_USER" ∧
  setting w' "DNS_API_PASS" = setting w "DNS_API_PASS" ∧
  setting w' "SCHOOL_IP_ADDRESS" = setting w "SCHOOL_IP_ADDRESS" ∧
  setting w' "DNS_API_URI" = setting w "DNS_API_URI" ∧
  (∀ u, w_scheme w' u = w_scheme w u) ∧
  (∀ u a, same_kind (w_remote w [] u "addSubdomain" a)
                    (w_remote w' [] u "addSubdomain" a)) ∧
  (∀ t u a, w_remote w' t u "addZoneRecord" a
            = w_remote w t u "addZoneRecord" a).

(** A server whose answer to [addSubdomain] is a string. *)
Definition verbose_server
    (_ : list event) (_ method : string) (_ : list value) : exn + value :=
  if String.eqb method "addSubdomain" then inr (VStr "created")
  else inr (VBool true).

(** ** What a statement may do to the state *)

(** The names [main] assigns (lines 13-31): its local variables. *)
Definition main_locals : list string :=
  [ "global_api_username"; "global_api_password"; "school_ip_address";
    "global_dns_uri"; "domain_suffix"; "subdomain"; "client"; "response";
    "record_obj" ].

(** [grows s s']: the trace of [s'] extends that of [s], every environment
    variable of [s] is in [s'] with its value, and the two states bind
    every name that [main] does not assign alike. *)
Definition grows (s s' : state) : Prop :=
  st_trace s `prefix_of` st_trace s' ∧
  st_environ s ⊆ st_environ s' ∧
  ∀ x, x ∉ main_locals → st_locals s' !! x = st_locals s !! x.

(** A computation preserves [grows] when every run of it, from every
    state, ends in a state that has grown. *)
Definition preserves {A} (c : M A) : Prop :=
  ∀ w s s' r, c w s = (s', r) → grows s s'.

(** * Properties *)

(** Unfolds the monad and the name operations in a statement. *)
Ltac unfold_monad :=
  cbv [mbind M_bind mret M_ret raise lift ask get modify emit
       load_fast store_fast load_global getattr call].

(** ** Blocks *)

Lemma block_cons (c : M unit) cs w s :
  block (c :: cs) w s =
    match c w s with
    | (s', Normal _) => block cs w s'
    | (s', Raise e) => (s', Raise e)
    end.
Proof. reflexivity. Qed.

Lemma block_app pre post w s :
  block (pre ++ post) w s =
    match block pre w s with
    | (s', Normal _) => block post w s'
    | (s', Raise e) => (s', Raise e)
    end.
Proof.
  revert s. induction pre as [|c pre IH]; intros s; [done|].
  rewrite <- app_comm_cons, !block_cons.
  destruct (c w s) as [s' [[]|e]]; [apply IH | done].
Qed.

Lemma reaches_raise w n (c : M unit) s s' e :
  reaches w n s → main_body !! n = Some c → c w s = (s', Raise e) →
  main w (initial w) = (s', Raise e).
Proof.
  intros Hn Hc He. unfold main.
  rewrite <- (take_drop_middle main_body n c Hc), block_app, Hn, block_cons.
  by rewrite He.
Qed.

Lemma reaches_step w n (c : M unit) s s' :
  reaches w n s → main_body !! n = Some c → c w s = (s', Normal tt) →
  reaches w (S n) s'.
Proof.
  intros Hn Hc He. unfold reaches.
  rewrite (take_S_r _ _ _ Hc), block_app, Hn, block_cons, He. done.
Qed.

Lemma reaches_end w s :
  reaches w (length main_body) s → main w (initial w) = (s, Normal tt).
Proof. unfold reaches. by rewrite firstn_all. Qed.

(** A block that raises does so at one of its statements, reached after
    the statements before it completed. *)
Lemma block_raise_inv cs w s0 s' e :
  block cs w s0 = (s', Raise e) →
  ∃ n (c : M unit) s,
    block (take n cs) w s0 = (s, Normal tt) ∧ cs !! n = Some c ∧
    c w s = (s', Raise e).
Proof.
  revert s0. induction cs as [|c cs IH]; intros s0; [done|].
  rewrite block_cons. destruct (c w s0) as [s1 [[]|e1]] eqn:Hc.
  - intros (n & c' & s & Hn & Hc' & He)%IH.
    exists (S n), c', s. split_and!; [|done..].
    by rewrite firstn_cons, block_cons, Hc.
  - intros [= <- <-]. by exists 0%nat, c, s0.
Qed.

Lemma run_main w : run w = main w (initial w).
Proof. reflexivity. Qed.

(** ** What each statement does *)

Lemma no_global_domain : module_globals !! "domain" = None.
Proof. reflexivity. Qed.

Lemma stmt_load_dotenv_run w s :
  stmt_load_dotenv w s =
    (set_environ (st_environ s ∪ w_dotenv w) s, Normal tt).
Proof. reflexivity. Qed.

Lemma stmt_getenv_run x key w s :
  stmt_getenv x key w s =
    (set_local x (getenv_value (st_environ s) key) s, Normal tt).
Proof. reflexivity. Qed.

Lemma stmt_subdomain_run w s :
  stmt_subdomain w s =
    match w_argv w !! 1%nat with
    | Some a => (set_local "subdomain" (VStr a) s, Normal tt)
    | None => (s, Raise IndexError)
    end.
Proof.
  unfold stmt_subdomain, sys_argv, subscript. unfold_monad.
  by destruct (w_argv w !! 1%nat).
Qed.

Lemma stmt_client_run w s uri :
  st_locals s !! "global_dns_uri" = Some uri →
  stmt_client w s =
    match ServerProxy_init (w_scheme w) uri "utf-8" with
    | inr c => (set_local "client" c s, Normal tt)
    | inl e => (s, Raise e)
    end.
Proof.
  intros Huri. unfold stmt_client, ServerProxy. unfold_monad.
  rewrite Huri. by destruct (ServerProxy_init _ _ _).
Qed.

Lemma stmt_addSubdomain_run w s u enc a1 a2 a4 :
  st_locals s !! "client" = Some (VProxy u enc) →
  st_locals s !! "global_api_username" = Some a1 →
  st_locals s !! "global_api_password" = Some a2 →
  st_locals s !! "subdomain" = Some a4 →
  stmt_addSubdomain w s =
    match w_builtins w !! "domain" with
    | None => (s, Raise (NameError "domain"))
    | Some d =>
        let s' := add_event (ECall u "addSubdomain" [a1; a2; d; a4]) s in
        match w_remote w (st_trace s) u "addSubdomain" [a1; a2; d; a4] with
        | inl e => (s', Raise e)
        | inr r => (set_local "response" r s', Normal tt)
        end
    end.
Proof.
  intros Hc H1 H2 H4. unfold stmt_addSubdomain. unfold_monad.
  rewrite Hc, H1, H2, no_global_domain.
  destruct (w_builtins w !! "domain") as [d|]; [|done].
  rewrite H4. by destruct (w_remote _ _ _ _ _).
Qed.

Lemma stmt_sleep_run w s :
  stmt_sleep w s = (add_event (ESleep 1) s, Normal tt).
Proof. reflexivity. Qed.

Lemma stmt_record_obj_run w s ip :
  st_locals s !! "school_ip_address" = Some ip →
  stmt_record_obj w s =
    (set_local "record_obj" (VDict (record_obj ip)) s, Normal tt).
Proof. intros Hip. unfold stmt_record_obj. unfold_monad. by rewrite Hip. Qed.

Lemma stmt_addZoneRecord_run w s u enc a1 a2 a4 a5 :
  st_locals s !! "client" = Some (VProxy u enc) →
  st_locals s !! "global_api_username" = Some a1 →
  st_locals s !! "global_api_password" = Some a2 →
  st_locals s !! "subdomain" = Some a4 →
  st_locals s !! "record_obj" = Some a5 →
  stmt_addZoneRecord w s =
    match w_builtins w !! "domain" with
    | None => (s, Raise (NameError "domain"))
    | Some d =>
        let s' := add_event (ECall u "addZoneRecord" [a1; a2; d; a4; a5]) s in
        match w_remote w (st_trace s) u "addZoneRecord" [a1; a2; d; a4; a5] with
        | inl e => (s', Raise e)
        | inr r => (set_local "response" r s', Normal tt)
        end
    end.
Proof.
  intros Hc H1 H2 H4 H5. unfold stmt_addZoneRecord. unfold_monad.
  rewrite Hc, H1, H2, no_global_domain.
  destruct (w_builtins w !! "domain") as [d|]; [|done].
  rewrite H4, H5. by destruct (w_remote _ _ _ _ _).
Qed.

(** At either call site the name [domain] is evaluated before anything is
    sent: with the proxy and the credentials in place and no [domain] in
    the builtins, the statement raises and leaves the state as it was. *)
Lemma call_site_NameError w s u enc a1 a2 :
  w_builtins w !! "domain" = None →
  st_locals s !! "client" = Some (VProxy u enc) →
  st_locals s !! "global_api_username" = Some a1 →
  st_locals s !! "global_api_password" = Some a2 →
  stmt_addSubdomain w s = (s, Raise (NameError "domain")) ∧
  stmt_addZoneRecord w s = (s, Raise (NameError "domain")).
Proof.
  intros Hb Hc H1 H2. unfold stmt_addSubdomain, stmt_addZoneRecord.
  unfold_monad. by rewrite Hc, H1, H2, no_global_domain, Hb.
Qed.

(** ** The straight path through [main] *)

Lemma ServerProxy_init_inr scheme uri enc c :
  ServerProxy_init scheme uri enc = inr c →
  ∃ u, uri = VStr u ∧ scheme u ∈ [inr "http"; inr "https"] ∧
       c = VProxy u enc.
Proof.
  destruct uri as [| | |u| | | |]; try discriminate. simpl.
  destruct (scheme u) as [e|sch] eqn:Hu; [discriminate|].
  case_bool_decide as Hs; [|discriminate].
  intros [= <-]. exists u. rewrite Hu. split_and!; [done| |done].
  exact (list_elem_of_fmap_2 inr _ _ Hs).
Qed.

Lemma ServerProxy_init_accepts scheme u enc :
  scheme u ∈ [inr "http"; inr "https"] →
  ServerProxy_init scheme (VStr u) enc = inr (VProxy u enc).
Proof.
  intros Hs. simpl. destruct (scheme u) as [e|sch].
  - apply elem_of_cons in Hs as [Hs|Hs]; [discriminate|].
    by apply list_elem_of_singleton in Hs.
  - rewrite bool_decide_eq_true_2; [done|].
    apply elem_of_cons in Hs as [[= ->]|Hs]; [set_solver|].
    apply list_elem_of_singleton in Hs as [= ->]. set_solver.
Qed.

Lemma reaches_config w : reaches w 6 (configured_state w).
Proof. reflexivity. Qed.

Lemma reaches_argument w sub :
  w_argv w !! 1%nat = Some sub → reaches w 7 (argument_state w sub).
Proof.
  intros Ha. eapply reaches_step; [apply reaches_config | reflexivity |].
  by rewrite stmt_subdomain_run, Ha.
Qed.

Lemma reaches_client w sub u :
  w_argv w !! 1%nat = Some sub →
  ServerProxy_init (w_scheme w) (setting w "DNS_API_URI") "utf-8"
    = inr (VProxy u "utf-8") →
  reaches w 8 (client_state w sub u).
Proof.
  intros Ha Hp.
  eapply reaches_step; [by apply reaches_argument | reflexivity |].
  rewrite (stmt_client_run _ _ (setting w "DNS_API_URI")) by reflexivity.
  by rewrite Hp.
Qed.

Lemma reaches_record w sub u d r1 :
  w_argv w !! 1%nat = Some sub →
  ServerProxy_init (w_scheme w) (setting w "DNS_API_URI") "utf-8"
    = inr (VProxy u "utf-8") →
  w_builtins w !! "domain" = Some d →
  w_remote w [] u "addSubdomain"
    [setting w "DNS_API_USER"; setting w "DNS_API_PASS"; d; VStr sub]
    = inr r1 →
  reaches w 11 (record_state w sub u d r1).
Proof.
  intros Ha Hp Hd H1.
  eapply reaches_step; [eapply reaches_step; [eapply reaches_step|..]|..];
    [by apply reaches_client | reflexivity | | reflexivity | | reflexivity |].
  - erewrite stmt_addSubdomain_run by reflexivity. rewrite Hd. simpl.
    by rewrite H1.
  - apply stmt_sleep_run.
  - by erewrite stmt_record_obj_run by reflexivity.
Qed.

Lemma outcome_sound w s r : outcome w s r → main w (initial w) = (s, r).
Proof.
  destruct 1 as [Ha|sub e Ha Hp|sub u Ha Hp Hd|sub u d e Ha Hp Hd H1
                 |sub u d r1 e Ha Hp Hd H1 H2|sub u d r1 r2 Ha Hp Hd H1 H2].
  - eapply reaches_raise; [apply reaches_config | reflexivity |].
    by rewrite stmt_subdomain_run, Ha.
  - eapply reaches_raise; [by apply reaches_argument | reflexivity |].
    rewrite (stmt_client_run _ _ (setting w "DNS_API_URI")) by reflexivity.
    by rewrite Hp.
  - eapply reaches_raise; [by apply reaches_client | reflexivity |].
    erewrite stmt_addSubdomain_run by reflexivity. by rewrite Hd.
  - eapply reaches_raise; [by apply reaches_client | reflexivity |].
    erewrite stmt_addSubdomain_run by reflexivity. rewrite Hd. simpl.
    by rewrite H1.
  - eapply reaches_raise; [by eapply reaches_record | reflexivity |].
    erewrite stmt_addZoneRecord_run by reflexivity. rewrite Hd. simpl.
    by rewrite H2.
  - apply reaches_end.
    eapply reaches_step; [by eapply reaches_record | reflexivity |].
    erewrite stmt_addZoneRecord_run by reflexivity. rewrite Hd. simpl.
    by rewrite H2.
Qed.

Lemma outcome_total w : ∃ s r, outcome w s r.
Proof.
  destruct (w_argv w !! 1%nat) as [sub|] eqn:Ha;
    [|eauto using no_argument].
  destruct (ServerProxy_init (w_scheme w) (setting w "DNS_API_URI") "utf-8")
    as [e|c] eqn:Hp; [eauto using proxy_rejected|].
  destruct (ServerProxy_init_inr _ _ _ _ Hp) as (u & _ & _ & ->).
  destruct (w_builtins w !! "domain") as [d|] eqn:Hd;
    [|eauto using domain_undefined].
  destruct (w_remote w [] u "addSubdomain"
    [setting w "DNS_API_USER"; setting w "DNS_API_PASS"; d; VStr sub])
    as [e|r1] eqn:H1; [eauto using first_call_fails|].
  destruct (w_remote w [first_call w sub u d; ESleep 1] u "addZoneRecord"
    [setting w "DNS_API_USER"; setting w "DNS_API_PASS"; d; VStr sub;
     VDict (record_obj (setting w "SCHOOL_IP_ADDRESS"))])
    as [e|r2] eqn:H2;
    eauto using second_call_fails, both_calls_return.
Qed.

(** Every run of the script ends in one of the six ways. *)
Lemma run_outcome w s r : run w = (s, r) ↔ outcome w s r.
Proof.
  rewrite run_main. split; [|apply outcome_sound].
  destruct (outcome_total w) as (s' & r' & Ho).
  rewrite (outcome_sound _ _ _ Ho). by intros [= <- <-].
Qed.

(** ** Traces *)

(** The trace of a run is empty, or the first invocation alone, or the
    first invocation, the pause and the second invocation. *)
Lemma outcome_trace w s r :
  outcome w s r →
  st_trace s = [] ∨
  ∃ sub u d,
    w_argv w !! 1%nat = Some sub ∧
    setting w "DNS_API_URI" = VStr u ∧
    w_builtins w !! "domain" = Some d ∧
    (st_trace s = [first_call w sub u d] ∨
     st_trace s = [first_call w sub u d; ESleep 1; second_call w sub u d]).
Proof.
  destruct 1 as [Ha|sub e Ha Hp|sub u Ha Hp Hd|sub u d e Ha Hp Hd H1
                 |sub u d r1 e Ha Hp Hd H1 H2|sub u d r1 r2 Ha Hp Hd H1 H2];
    [by left..| | |];
    right; exists sub, u, d;
    destruct (ServerProxy_init_inr _ _ _ _ Hp) as (u' & Hu & _ & [= <-]);
    split_and!; auto.
Qed.

Lemma run_trace w :
  st_trace (run w).1 = [] ∨
  ∃ sub u d,
    w_argv w !! 1%nat = Some sub ∧
    setting w "DNS_API_URI" = VStr u ∧
    w_builtins w !! "domain" = Some d ∧
    (st_trace (run w).1 = [first_call w sub u d] ∨
     st_trace (run w).1
       = [first_call w sub u d; ESleep 1; second_call w sub u d]).
Proof.
  destruct (run w) as [s r] eqn:Hrun. apply run_outcome in Hrun.
  exact (outcome_trace _ _ _ Hrun).
Qed.

(** Every invocation in a run is one of the two, with these arguments. *)
Lemma run_calls w u m args :
  ECall u m args ∈ st_trace (run w).1 →
  ∃ sub d,
    w_argv w !! 1%nat = Some sub ∧
    setting w "DNS_API_URI" = VStr u ∧
    w_builtins w !! "domain" = Some d ∧
    (ECall u m args = first_call w sub u d ∨
     ECall u m args = second_call w sub u d).
Proof.
  intros Hin.
  destruct (run_trace w) as [Ht|(sub & u' & d & Ha & Hu & Hd & [Ht|Ht])];
    rewrite Ht in Hin; [by apply elem_of_nil in Hin|..];
    exists sub, d;
    assert (u = u' ∧
            (ECall u m args = first_call w sub u' d ∨
             ECall u m args = second_call w sub u' d)) as [-> ?];
    [|by split_and!| |by split_and!].
  - apply list_elem_of_singleton in Hin. split; [by injection Hin|auto].
  - apply elem_of_cons in Hin as [Hin|Hin];
      [split; [by injection Hin|auto]|].
    apply elem_of_cons in Hin as [Hin|Hin]; [discriminate|].
    apply list_elem_of_singleton in Hin. split; [by injection Hin|auto].
Qed.

(** Once the proxy is built and [domain] resolves, the first invocation
    is made; once it is answered, the pause and the second follow. *)
Lemma run_first_call w sub u d :
  w_argv w !! 1%nat = Some sub →
  ServerProxy_init (w_scheme w) (setting w "DNS_API_URI") "utf-8"
    = inr (VProxy u "utf-8") →
  w_builtins w !! "domain" = Some d →
  st_trace (run w).1 !! 0%nat = Some (first_call w sub u d).
Proof.
  intros Ha Hp Hd.
  destruct (w_remote w [] u "addSubdomain"
    [setting w "DNS_API_USER"; setting w "DNS_API_PASS"; d; VStr sub])
    as [e|r1] eqn:H1.
  { pose proof (first_call_fails w sub u d e Ha Hp Hd H1) as Ho.
    apply run_outcome in Ho. by rewrite Ho. }
  destruct (w_remote w [first_call w sub u d; ESleep 1] u "addZoneRecord"
    [setting w "DNS_API_USER"; setting w "DNS_API_PASS"; d; VStr sub;
     VDict (record_obj (setting w "SCHOOL_IP_ADDRESS"))])
    as [e|r2] eqn:H2.
  - pose proof (second_call_fails w sub u d r1 e Ha Hp Hd H1 H2) as Ho.
    apply run_outcome in Ho. by rewrite Ho.
  - pose proof (both_calls_return w sub u d r1 r2 Ha Hp Hd H1 H2) as Ho.
    apply run_outcome in Ho. by rewrite Ho.
Qed.

Lemma run_second_call w sub u d r1 :
  w_argv w !! 1%nat = Some sub →
  ServerProxy_init (w_scheme w) (setting w "DNS_API_URI") "utf-8"
    = inr (VProxy u "utf-8") →
  w_builtins w !! "domain" = Some d →
  w_remote w [] u "addSubdomain"
    [setting w "DNS_API_USER"; setting w "DNS_API_PASS"; d; VStr sub]
    = inr r1 →
  st_trace (run w).1
    = [first_call w sub u d; ESleep 1; second_call w sub u d].
Proof.
  intros Ha Hp Hd H1.
  destruct (w_remote w [first_call w sub u d; ESleep 1] u "addZoneRecord"
    [setting w "DNS_API_USER"; setting w "DNS_API_PASS"; d; VStr sub;
     VDict (record_obj (setting w "SCHOOL_IP_ADDRESS"))])
    as [e|r2] eqn:H2.
  - pose proof (second_call_fails w sub u d r1 e Ha Hp Hd H1 H2) as Ho.
    apply run_outcome in Ho. by rewrite Ho.
  - pose proof (both_calls_return w sub u d r1 r2 Ha Hp Hd H1 H2) as Ho.
    apply run_outcome in Ho. by rewrite Ho.
Qed.

(** ** Names and reachability *)

Lemma outcome_domain_unbound w s r :
  outcome w s r → st_locals s !! "domain" = None.
Proof. by destruct 1. Qed.

Lemma reaches_call_site_inv w s :
  reaches w 8 s →
  ∃ sub u,
    w_argv w !! 1%nat = Some sub ∧
    ServerProxy_init (w_scheme w) (setting w "DNS_API_URI") "utf-8"
      = inr (VProxy u "utf-8") ∧
    s = client_state w sub u.
Proof.
  unfold reaches.
  change (take 8 main_body)
    with (take 6 main_body ++ [stmt_subdomain; stmt_client])%list.
  rewrite block_app, (reaches_config w), block_cons, stmt_subdomain_run.
  destruct (w_argv w !! 1%nat) as [sub|] eqn:Ha; [|done].
  rewrite block_cons.
  rewrite (stmt_client_run _ _ (setting w "DNS_API_URI")) by reflexivity.
  destruct (ServerProxy_init _ _ _) as [e|c] eqn:Hp; [done|].
  destruct (ServerProxy_init_inr _ _ _ _ Hp) as (u & _ & _ & ->).
  intros [= <-]. by exists sub, u.
Qed.

Lemma argument_missing (argv : list string) :
  (length argv ≤ 1)%nat → argv !! 1%nat = None.
Proof. intros Hlen. apply lookup_ge_None_2. lia. Qed.

Lemma record_obj_dom rdata :
  dom (record_obj rdata)
    = ({[ "type"; "ttl"; "priority"; "rdata"; "record_id" ]} : gset string).
Proof.
  unfold record_obj. rewrite !dom_insert_L, dom_empty_L. set_solver.
Qed.

(** In a stock interpreter no run sends anything. *)
Lemma stock_run_issues_no_call w :
  w_builtins w !! "domain" = None → st_trace (run w).1 = [].
Proof.
  intros Hb.
  destruct (run_trace w) as [Ht|(sub & u & d & _ & _ & Hd & _)];
    [done | congruence].
Qed.

(** An exception that ends the run was raised by a statement of [main]. *)
Lemma run_raise_inv w s' e :
  run w = (s', Raise e) →
  ∃ n (c : M unit) s,
    reaches w n s ∧ main_body !! n = Some c ∧ c w s = (s', Raise e).
Proof. rewrite run_main. apply block_raise_inv. Qed.

(** ** The claims *)

(** C1.  The script is run in a stock interpreter with all five variables
    set and the argument [alice].  It issues no remote call at all: the
    run stops at line 22 with [NameError: name 'domain' is not defined] and
    the process exits with status 1. *)
Theorem configured_run_issues_no_call :
  let w := stock_world example_environ ["registerSubdomain.py"; "alice"] in
  (λ key, effective_environ w !! key) <$>
      ["DNS_API_USER"; "DNS_API_PASS"; "SCHOOL_IP_ADDRESS"; "DNS_API_URI";
       "DOMAIN_SUFFIX"]
    = Some <$> ["admin"; "secret"; "192.0.2.10";
                "https://dns.example.net/xmlrpc"; "school.example"] ∧
  w_argv w !! 1%nat = Some "alice" ∧
  run w = (client_state w "alice" "https://dns.example.net/xmlrpc",
           Raise (NameError "domain")) ∧
  st_trace (run w).1 = [] ∧
  exit_status (run w).2 = 1.
Proof. vm_compute. split_and!; reflexivity. Qed.

(** C2.  The name [domain] is bound neither among the module's globals nor
    among the locals of [main] (the loaded value sits in [domain_suffix]).
    With no [domain] among the builtins either, each of the two call sites
    raises [NameError] while evaluating its arguments, leaving the state
    untouched; so every run that reaches line 22 ends there with that
    error and an empty trace. *)
Theorem domain_is_never_defined w s :
  w_builtins w !! "domain" = None →
  reaches w 8 s →
  module_globals !! "domain" = None ∧
  st_locals s !! "domain" = None ∧
  st_locals s !! "domain_suffix" = Some (setting w "DOMAIN_SUFFIX") ∧
  stmt_addSubdomain w s = (s, Raise (NameError "domain")) ∧
  stmt_addZoneRecord w s = (s, Raise (NameError "domain")) ∧
  run w = (s, Raise (NameError "domain")) ∧
  st_trace s = [].
Proof.
  intros Hb (sub & u & Ha & Hp & ->)%reaches_call_site_inv.
  split_and!; try reflexivity.
  - by eapply call_site_NameError.
  - by eapply call_site_NameError.
  - apply run_outcome. by apply domain_undefined.
Qed.

Lemma domain_is_never_defined_witness :
  let w := stock_world example_environ ["registerSubdomain.py"; "alice"] in
  run w = (client_state w "alice" "https://dns.example.net/xmlrpc",
           Raise (NameError "domain")).
Proof.
  intros w.
  apply (domain_is_never_defined w
           (client_state w "alice" "https://dns.example.net/xmlrpc"));
    vm_compute; reflexivity.
Defined.

(** C3.  Whenever both invocations occur in a run, the trace of the run is
    the [addSubdomain] invocation, then [time.sleep(1)], then the
    [addZoneRecord] invocation: the pause is there for every world, and its
    length is the constant 1. *)
Theorem fixed_delay_between_calls w u1 args1 u2 args2 :
  ECall u1 "addSubdomain" args1 ∈ st_trace (run w).1 →
  ECall u2 "addZoneRecord" args2 ∈ st_trace (run w).1 →
  st_trace (run w).1
    = [ECall u1 "addSubdomain" args1; ESleep 1;
       ECall u2 "addZoneRecord" args2].
Proof.
  intros H1 H2.
  destruct (run_trace w) as [Ht|(sub & u & d & _ & _ & _ & [Ht|Ht])];
    rewrite Ht in H1, H2 |- *.
  - by apply elem_of_nil in H1.
  - by apply list_elem_of_singleton in H2.
  - apply elem_of_cons in H1 as [H1|H1]; last first.
    { apply elem_of_cons in H1 as [H1|H1]; [discriminate|].
      by apply list_elem_of_singleton in H1. }
    apply elem_of_cons in H2 as [H2|H2]; [discriminate|].
    apply elem_of_cons in H2 as [H2|H2]; [discriminate|].
    apply list_elem_of_singleton in H2. by rewrite H1, H2.
Qed.

Lemma fixed_delay_between_calls_witness :
  let w := hosted_world example_environ ["registerSubdomain.py"; "alice"]
             accepting_server in
  let u := "https://dns.example.net/xmlrpc" in
  st_trace (run w).1
    = [ECall u "addSubdomain"
         [VStr "admin"; VStr "secret"; VStr "school.example"; VStr "alice"];
       ESleep 1;
       ECall u "addZoneRecord"
         [VStr "admin"; VStr "secret"; VStr "school.example"; VStr "alice";
          VDict (record_obj (VStr "192.0.2.10"))]].
Proof.
  intros w u. apply (fixed_delay_between_calls w).
  - vm_compute. apply list_elem_of_here.
  - vm_compute. do 2 apply list_elem_of_further. apply list_elem_of_here.
Defined.

(** C4.  The fifth argument of every [addZoneRecord] invocation is a
    dictionary with exactly the keys type, ttl, priority, rdata and
    record_id; four of them carry the constants 'A', 3600, 1 and 10 in every
    world, and rdata carries what [os.getenv('SCHOOL_IP_ADDRESS')]
    returned. *)
Theorem record_passed_to_addZoneRecord w u args :
  ECall u "addZoneRecord" args ∈ st_trace (run w).1 →
  ∃ rec : gmap string value,
    args !! 4%nat = Some (VDict rec) ∧
    length args = 5%nat ∧
    dom rec = {[ "type"; "ttl"; "priority"; "rdata"; "record_id" ]} ∧
    rec !! "type" = Some (VStr "A") ∧
    rec !! "ttl" = Some (VInt 3600) ∧
    rec !! "priority" = Some (VInt 1) ∧
    rec !! "rdata" = Some (setting w "SCHOOL_IP_ADDRESS") ∧
    rec !! "record_id" = Some (VInt 10).
Proof.
  intros (sub & d & _ & _ & _ & [Hc|Hc])%run_calls; [discriminate|].
  injection Hc as ->.
  exists (record_obj (setting w "SCHOOL_IP_ADDRESS")).
  split_and!; [reflexivity.. | apply record_obj_dom | | | | |];
    reflexivity.
Qed.

Lemma record_passed_to_addZoneRecord_witness :
  let w := hosted_world example_environ ["registerSubdomain.py"; "alice"]
             accepting_server in
  ∃ rec : gmap string value,
    [VStr "admin"; VStr "secret"; VStr "school.example"; VStr "alice";
     VDict (record_obj (VStr "192.0.2.10"))] !! 4%nat = Some (VDict rec) ∧
    rec !! "rdata" = Some (VStr "192.0.2.10").
Proof.
  intros w.
  destruct (record_passed_to_addZoneRecord w "https://dns.example.net/xmlrpc"
    [VStr "admin"; VStr "secret"; VStr "school.example"; VStr "alice";
     VDict (record_obj (VStr "192.0.2.10"))])
    as (rec & Hrec & _ & _ & _ & _ & _ & Hrdata & _).
  - vm_compute. do 2 apply list_elem_of_further. apply list_elem_of_here.
  - exists rec. split; [exact Hrec | exact Hrdata].
Defined.

(** C5.  When [sys.argv] holds the program name only, the run stops at
    line 19: the six statements before it complete, [sys.argv[1]] raises
    [IndexError], no client has been built, nothing has been sent, and the
    process exits with status 1. *)
Theorem missing_argument_raises_IndexError w :
  (length (w_argv w) ≤ 1)%nat →
  reaches w 6 (configured_state w) ∧
  main_body !! 6%nat = Some stmt_subdomain ∧
  stmt_subdomain w (configured_state w)
    = (configured_state w, Raise IndexError) ∧
  run w = (configured_state w, Raise IndexError) ∧
  st_locals (run w).1 !! "client" = None ∧
  st_trace (run w).1 = [] ∧
  exit_status (run w).2 = 1.
Proof.
  intros Ha%argument_missing.
  assert (run w = (configured_state w, Raise IndexError)) as Hrun
    by (apply run_outcome; by apply no_argument).
  rewrite Hrun, stmt_subdomain_run, Ha. by split_and!.
Qed.

Lemma missing_argument_raises_IndexError_witness :
  let w := stock_world example_environ ["registerSubdomain.py"] in
  run w = (configured_state w, Raise IndexError) ∧
  exit_status (run w).2 = 1.
Proof.
  intros w.
  destruct (missing_argument_raises_IndexError w)
    as (_ & _ & _ & Hrun & _ & _ & Hexit).
  - vm_compute. lia.
  - split; [exact Hrun | exact Hexit].
Defined.

(** C6.  [main] has no handler: when a statement of [main] raises, reached
    after the statements before it completed, the run of the script ends
    with that very exception in the state the statement left (nothing is
    added to the trace), and the process exits with status 1. *)
Theorem exceptions_leave_main_unhandled w n (c : M unit) s s' e :
  reaches w n s →
  main_body !! n = Some c →
  c w s = (s', Raise e) →
  run w = (s', Raise e) ∧ exit_status (run w).2 = 1.
Proof.
  intros Hn Hc He. rewrite run_main, (reaches_raise _ _ _ _ _ _ Hn Hc He).
  done.
Qed.

(** The four failures the specification lists: no argument, an unset URI,
    an unreachable server, an answer that cannot be parsed. *)
Lemma exceptions_leave_main_unhandled_witness :
  let argv := ["registerSubdomain.py"; "alice"] in
  let u := "https://dns.example.net/xmlrpc" in
  let d := VStr "school.example" in
  let w1 := stock_world example_environ ["registerSubdomain.py"] in
  let w2 := stock_world (delete "DNS_API_URI" example_environ) argv in
  let w3 := hosted_world example_environ argv unreachable_server in
  let w4 := hosted_world example_environ argv garbling_server in
  (run w1 = (configured_state w1, Raise IndexError) ∧
   exit_status (run w1).2 = 1) ∧
  (run w2 = (argument_state w2 "alice", Raise OSError) ∧
   exit_status (run w2).2 = 1) ∧
  (run w3 = (add_event (first_call w3 "alice" u d)
               (client_state w3 "alice" u), Raise OSError) ∧
   exit_status (run w3).2 = 1) ∧
  (run w4 = (add_event (second_call w4 "alice" u d)
               (record_state w4 "alice" u d (VBool true)),
             Raise ResponseError) ∧
   exit_status (run w4).2 = 1).
Proof.
  intros argv u d w1 w2 w3 w4. split; [|split; [|split]].
  - apply (exceptions_leave_main_unhandled w1 6 stmt_subdomain
             (configured_state w1));
      [vm_compute; reflexivity | reflexivity | vm_compute; reflexivity].
  - apply (exceptions_leave_main_unhandled w2 7 stmt_client
             (argument_state w2 "alice"));
      [vm_compute; reflexivity | reflexivity | vm_compute; reflexivity].
  - apply (exceptions_leave_main_unhandled w3 8 stmt_addSubdomain
             (client_state w3 "alice" u));
      [vm_compute; reflexivity | reflexivity | vm_compute; reflexivity].
  - apply (exceptions_leave_main_unhandled w4 11 stmt_addZoneRecord
             (record_state w4 "alice" u d (VBool true)));
      [vm_compute; reflexivity | reflexivity | vm_compute; reflexivity].
Defined.

(** C7.  Lines 11-17 complete in every world, whatever is set: each local
    of [settings_table] then holds what [os.getenv] returned, which is
    [None] for a variable that is unset.  Nothing inspects these values
    afterwards: an unset URI goes to the [ServerProxy] constructor as
    [None] (and it is the constructor that refuses it), and an unset
    credential or address goes into the invocations as [None]. *)
Theorem settings_loaded_without_validation w x key :
  (x, key) ∈ settings_table →
  effective_environ w !! key = None →
  reaches w 6 (configured_state w) ∧
  st_trace (configured_state w) = [] ∧
  st_locals (configured_state w) !! x = Some VNone ∧
  (∀ sub, key = "DNS_API_URI" → w_argv w !! 1%nat = Some sub →
     reaches w 7 (argument_state w sub) ∧
     stmt_client w (argument_state w sub)
       = (argument_state w sub, Raise OSError)) ∧
  (∀ u m args, ECall u m args ∈ st_trace (run w).1 →
     (key = "DNS_API_USER" → args !! 0%nat = Some VNone) ∧
     (key = "DNS_API_PASS" → args !! 1%nat = Some VNone) ∧
     (key = "SCHOOL_IP_ADDRESS" → m = "addZoneRecord" →
        args !! 4%nat = Some (VDict (record_obj VNone)))).
Proof.
  intros Hx Hunset.
  assert (setting w key = VNone) as Hnone
    by (unfold setting, getenv_value; by rewrite Hunset).
  split_and!; [apply reaches_config | reflexivity | | |].
  - unfold settings_table in Hx.
    repeat (apply elem_of_cons in Hx as [[= -> ->]|Hx];
            [by rewrite <- Hnone|]).
    by apply elem_of_nil in Hx.
  - intros sub -> Ha. split; [by apply reaches_argument|].
    rewrite (stmt_client_run _ _ (setting w "DNS_API_URI")) by reflexivity.
    by rewrite Hnone.
  - intros u m args (sub & d & _ & _ & _ & [Hc|Hc])%run_calls;
      injection Hc as -> ->;
      (split_and!; [by intros ->; rewrite <- Hnone..|]).
    + discriminate.
    + intros -> _. by rewrite <- Hnone.
Qed.

(** Only the URI is set, and then only the credentials and the address are
    missing. *)
Lemma settings_loaded_without_validation_witness :
  let argv := ["registerSubdomain.py"; "alice"] in
  let u := "https://dns.example.net/xmlrpc" in
  let w1 := stock_world (delete "DNS_API_URI" example_environ) argv in
  let w2 := hosted_world {[ "DNS_API_URI" := u ]} argv accepting_server in
  (reaches w1 6 (configured_state w1) ∧
   st_locals (configured_state w1) !! "global_dns_uri" = Some VNone ∧
   stmt_client w1 (argument_state w1 "alice")
     = (argument_state w1 "alice", Raise OSError)) ∧
  (reaches w2 6 (configured_state w2) ∧
   st_locals (configured_state w2) !! "global_api_username" = Some VNone ∧
   [VNone; VNone; VStr "school.example"; VStr "alice"] !! 0%nat
     = Some VNone).
Proof.
  intros argv u w1 w2. split.
  - destruct (settings_loaded_without_validation w1
                "global_dns_uri" "DNS_API_URI")
      as (Hload & _ & Hlocal & Hclient & _).
    + unfold settings_table. do 3 apply list_elem_of_further.
      apply list_elem_of_here.
    + vm_compute; reflexivity.
    + split_and!; [exact Hload | exact Hlocal |].
      apply (Hclient "alice"); reflexivity.
  - destruct (settings_loaded_without_validation w2
                "global_api_username" "DNS_API_USER")
      as (Hload & _ & Hlocal & _ & Hcalls).
    + unfold settings_table. apply list_elem_of_here.
    + vm_compute; reflexivity.
    + split_and!; [exact Hload | exact Hlocal |].
      destruct (Hcalls u "addSubdomain"
                  [VNone; VNone; VStr "school.example"; VStr "alice"])
        as (Huser & _ & _).
      * vm_compute. apply list_elem_of_here.
      * exact (Huser eq_refl).
Defined.

(** C8.  Both invocations are made with the credentials: once the proxy is
    built and [domain] resolves, the first event of the run is the
    [addSubdomain] invocation with the values of
    [os.getenv('DNS_API_USER')] and [os.getenv('DNS_API_PASS')], as read,
    as its first and second arguments, and once that is answered the
    third event is the [addZoneRecord] invocation with the same two first.
    And no invocation of any run carries anything else in these two
    places. *)
Theorem credentials_on_every_call w :
  (∀ u m args, ECall u m args ∈ st_trace (run w).1 →
     args !! 0%nat = Some (setting w "DNS_API_USER") ∧
     args !! 1%nat = Some (setting w "DNS_API_PASS")) ∧
  (∀ sub u d,
     w_argv w !! 1%nat = Some sub →
     setting w "DNS_API_URI" = VStr u →
     w_scheme w u ∈ [inr "http"; inr "https"] →
     w_builtins w !! "domain" = Some d →
     st_trace (run w).1 !! 0%nat
       = Some (ECall u "addSubdomain"
                 [setting w "DNS_API_USER"; setting w "DNS_API_PASS"; d;
                  VStr sub]) ∧
     (∀ r1,
        w_remote w [] u "addSubdomain"
          [setting w "DNS_API_USER"; setting w "DNS_API_PASS"; d; VStr sub]
          = inr r1 →
        st_trace (run w).1 !! 2%nat
          = Some (ECall u "addZoneRecord"
                    [setting w "DNS_API_USER"; setting w "DNS_API_PASS"; d;
                     VStr sub;
                     VDict (record_obj (setting w "SCHOOL_IP_ADDRESS"))]))).
Proof.
  split.
  - by intros u m args (sub & d & _ & _ & _ & [Hc|Hc])%run_calls;
      injection Hc as _ ->.
  - intros sub u d Ha Hu Hs Hd.
    assert (ServerProxy_init (w_scheme w) (setting w "DNS_API_URI") "utf-8"
            = inr (VProxy u "utf-8")) as Hp
      by (rewrite Hu; by apply ServerProxy_init_accepts).
    split; [exact (run_first_call w sub u d Ha Hp Hd)|].
    intros r1 H1. by rewrite (run_second_call w sub u d r1 Ha Hp Hd H1).
Qed.

(** Both invocations of a run, with the credentials of the environment. *)
Lemma credentials_on_every_call_witness :
  let w := hosted_world example_environ ["registerSubdomain.py"; "alice"]
             accepting_server in
  let u := "https://dns.example.net/xmlrpc" in
  effective_environ w !! "DNS_API_USER" = Some "admin" ∧
  effective_environ w !! "DNS_API_PASS" = Some "secret" ∧
  st_trace (run w).1 !! 0%nat
    = Some (ECall u "addSubdomain"
              [VStr "admin"; VStr "secret"; VStr "school.example";
               VStr "alice"]) ∧
  st_trace (run w).1 !! 2%nat
    = Some (ECall u "addZoneRecord"
              [VStr "admin"; VStr "secret"; VStr "school.example";
               VStr "alice"; VDict (record_obj (VStr "192.0.2.10"))]).
Proof.
  intros w u.
  destruct (credentials_on_every_call w) as [_ Hsent].
  destruct (Hsent "alice" u (VStr "school.example"))
    as [Hfirst Hsecond].
  - reflexivity.
  - reflexivity.
  - vm_compute. apply list_elem_of_further, list_elem_of_here.
  - reflexivity.
  - split_and!; [reflexivity | reflexivity | exact Hfirst |].
    exact (Hsecond (VBool true) eq_refl).
Defined.

(** C9.  Whatever string [sys.argv[1]] is, line 19 binds it to
    [subdomain] as it is, and it goes to both invocations as it is: once
    the proxy is built and [domain] resolves, the first event of the run is
    the [addSubdomain] invocation with that string as fourth argument, and
    once that is answered the third event is the [addZoneRecord]
    invocation with it as fourth argument.  None of the conditions looks
    at the string, and no invocation of the run carries anything else in
    that place. *)
Theorem subdomain_passed_verbatim w sub :
  w_argv w !! 1%nat = Some sub →
  reaches w 7 (argument_state w sub) ∧
  st_locals (argument_state w sub) !! "subdomain" = Some (VStr sub) ∧
  (∀ u m args, ECall u m args ∈ st_trace (run w).1 →
     args !! 3%nat = Some (VStr sub)) ∧
  (∀ u d,
     setting w "DNS_API_URI" = VStr u →
     w_scheme w u ∈ [inr "http"; inr "https"] →
     w_builtins w !! "domain" = Some d →
     st_trace (run w).1 !! 0%nat
       = Some (ECall u "addSubdomain"
                 [setting w "DNS_API_USER"; setting w "DNS_API_PASS"; d;
                  VStr sub]) ∧
     (∀ r1,
        w_remote w [] u "addSubdomain"
          [setting w "DNS_API_USER"; setting w "DNS_API_PASS"; d; VStr sub]
          = inr r1 →
        st_trace (run w).1 !! 2%nat
          = Some (ECall u "addZoneRecord"
                    [setting w "DNS_API_USER"; setting w "DNS_API_PASS"; d;
                     VStr sub;
                     VDict (record_obj (setting w "SCHOOL_IP_ADDRESS"))]))).
Proof.
  intros Ha. split_and!; [by apply reaches_argument | reflexivity | |].
  - intros u m args (sub' & d & Ha' & _ & _ & [Hc|Hc])%run_calls;
      injection Hc as _ ->; simpl; congruence.
  - intros u d Hu Hs Hd.
    assert (ServerProxy_init (w_scheme w) (setting w "DNS_API_URI") "utf-8"
            = inr (VProxy u "utf-8")) as Hp
      by (rewrite Hu; by apply ServerProxy_init_accepts).
    split; [exact (run_first_call w sub u d Ha Hp Hd)|].
    intros r1 H1. by rewrite (run_second_call w sub u d r1 Ha Hp Hd H1).
Qed.

(** The empty string, and a string that is no DNS label, in both
    invocations of a run. *)
Lemma subdomain_passed_verbatim_witness :
  let u := "https://dns.example.net/xmlrpc" in
  let w1 := hosted_world example_environ ["registerSubdomain.py"; ""]
              accepting_server in
  let w2 := hosted_world example_environ
              ["registerSubdomain.py"; " Not a label! "] accepting_server in
  (st_trace (run w1).1 !! 0%nat
     = Some (ECall u "addSubdomain"
               [VStr "admin"; VStr "secret"; VStr "school.example";
                VStr ""]) ∧
   st_trace (run w1).1 !! 2%nat
     = Some (ECall u "addZoneRecord"
               [VStr "admin"; VStr "secret"; VStr "school.example";
                VStr ""; VDict (record_obj (VStr "192.0.2.10"))])) ∧
  (st_trace (run w2).1 !! 0%nat
     = Some (ECall u "addSubdomain"
               [VStr "admin"; VStr "secret"; VStr "school.example";
                VStr " Not a label! "]) ∧
   st_trace (run w2).1 !! 2%nat
     = Some (ECall u "addZoneRecord"
               [VStr "admin"; VStr "secret"; VStr "school.example";
                VStr " Not a label! ";
                VDict (record_obj (VStr "192.0.2.10"))])).
Proof.
  intros u w1 w2. split.
  - destruct (subdomain_passed_verbatim w1 "") as (_ & _ & _ & Hsent);
      [reflexivity|].
    destruct (Hsent u (VStr "school.example")) as [Hfirst Hsecond];
      [reflexivity
      |vm_compute; apply list_elem_of_further, list_elem_of_here
      |reflexivity|].
    split; [exact Hfirst | exact (Hsecond (VBool true) eq_refl)].
  - destruct (subdomain_passed_verbatim w2 " Not a label! ")
      as (_ & _ & _ & Hsent); [reflexivity|].
    destruct (Hsent u (VStr "school.example")) as [Hfirst Hsecond];
      [reflexivity
      |vm_compute; apply list_elem_of_further, list_elem_of_here
      |reflexivity|].
    split; [exact Hfirst | exact (Hsecond (VBool true) eq_refl)].
Defined.

(** C10.  Two command lines with the same [sys.argv[1]] (or both without
    one) give the same run in the same world: the same final state, hence
    the same trace, and the same result. *)
Theorem extra_arguments_are_ignored w argv :
  argv !! 1%nat = w_argv w !! 1%nat →
  run (with_argv argv w) = run w.
Proof.
  intros Heq. destruct (run w) as [s r] eqn:Hrun.
  apply run_outcome in Hrun. apply run_outcome.
  destruct Hrun as [Ha|sub e Ha Hp|sub u Ha Hp Hd|sub u d e Ha Hp Hd H1
                    |sub u d r1 e Ha Hp Hd H1 H2|sub u d r1 r2 Ha Hp Hd H1 H2];
    rewrite <- Heq in Ha.
  - by apply (no_argument (with_argv argv w)).
  - by apply (proxy_rejected (with_argv argv w)).
  - by apply (domain_undefined (with_argv argv w)).
  - by apply (first_call_fails (with_argv argv w)).
  - by apply (second_call_fails (with_argv argv w)).
  - by apply (both_calls_return (with_argv argv w)).
Qed.

Lemma extra_arguments_are_ignored_witness :
  let w := hosted_world example_environ ["registerSubdomain.py"; "alice"]
             accepting_server in
  run (with_argv ["/usr/local/bin/reg"; "alice"; "--force"; "bob"] w)
    = run w.
Proof.
  intros w. apply (extra_arguments_are_ignored w). reflexivity.
Defined.

(** * Further properties of [main] *)

(** ** How runs end *)

Lemma ServerProxy_init_setting_inl w key enc e :
  ServerProxy_init (w_scheme w) (setting w key) enc = inl e →
  e = OSError ∨
  ∃ u, effective_environ w !! key = Some u ∧ w_scheme w u = inl e.
Proof.
  unfold setting, getenv_value, ServerProxy_init.
  destruct (effective_environ w !! key) as [u|]; [|left; congruence].
  destruct (w_scheme w u) as [e'|sch] eqn:Hu.
  - intros [= <-]. right. by exists u.
  - case_bool_decide; [discriminate|]. left. congruence.
Qed.

(** X1.  In a stock interpreter (no builtin [domain]) the script cannot
    succeed: every run, whatever the environment, the command line and the
    server, ends with an exception and exit status 1 and sends nothing.
    The exception is [IndexError] (line 19), or the one the constructor
    raised at line 21 ([OSError], or whatever [urlsplit] raised on the
    URI), or [NameError] for [domain] (line 22). *)
Theorem stock_run_always_fails w :
  w_builtins w !! "domain" = None →
  ((run w).2 = Raise IndexError ∨ (run w).2 = Raise OSError ∨
   (run w).2 = Raise (NameError "domain") ∨
   ∃ u e, effective_environ w !! "DNS_API_URI" = Some u ∧
          w_scheme w u = inl e ∧ (run w).2 = Raise e) ∧
  st_trace (run w).1 = [] ∧
  exit_status (run w).2 = 1.
Proof.
  intros Hb. destruct (run w) as [s r] eqn:Hrun.
  apply run_outcome in Hrun.
  destruct Hrun as [Ha|sub e Ha Hp|sub u Ha Hp Hd|sub u d e Ha Hp Hd H1
                    |sub u d r1 e Ha Hp Hd H1 H2|sub u d r1 r2 Ha Hp Hd H1 H2];
    try congruence; simpl.
  - auto.
  - apply ServerProxy_init_setting_inl in Hp as [->|(u & Hu & He)]; [auto|].
    split_and!; [|done..]. do 3 right. by exists u, e.
  - auto 6.
Qed.

Lemma stock_run_always_fails_witness :
  let w := stock_world example_environ ["registerSubdomain.py"; "alice"] in
  st_trace (run w).1 = [] ∧ exit_status (run w).2 = 1.
Proof.
  intros w. destruct (stock_run_always_fails w) as (_ & Ht & He).
  - reflexivity.
  - split; [exact Ht | exact He].
Defined.

(** X2.  The straight path: with an argument, a URI the constructor
    accepts, a [domain] to be found and a server that answers both
    requests, the run ends normally with exit status 0, its trace is the
    [addSubdomain] invocation, the pause and the [addZoneRecord]
    invocation, and [response] holds the second answer. *)
Theorem run_completes w sub u d r1 r2 :
  w_argv w !! 1%nat = Some sub →
  setting w "DNS_API_URI" = VStr u →
  w_scheme w u ∈ [inr "http"; inr "https"] →
  w_builtins w !! "domain" = Some d →
  w_remote w [] u "addSubdomain"
    [setting w "DNS_API_USER"; setting w "DNS_API_PASS"; d; VStr sub]
    = inr r1 →
  w_remote w [first_call w sub u d; ESleep 1] u "addZoneRecord"
    [setting w "DNS_API_USER"; setting w "DNS_API_PASS"; d; VStr sub;
     VDict (record_obj (setting w "SCHOOL_IP_ADDRESS"))]
    = inr r2 →
  (run w).2 = Normal tt ∧
  exit_status (run w).2 = 0 ∧
  st_trace (run w).1
    = [first_call w sub u d; ESleep 1; second_call w sub u d] ∧
  st_locals (run w).1 !! "response" = Some r2 ∧
  st_locals (run w).1 !! "client" = Some (VProxy u "utf-8").
Proof.
  intros Ha Hu Hs Hd H1 H2.
  assert (ServerProxy_init (w_scheme w) (setting w "DNS_API_URI") "utf-8"
          = inr (VProxy u "utf-8")) as Hp.
  { rewrite Hu. by apply ServerProxy_init_accepts. }
  pose proof (both_calls_return w sub u d r1 r2 Ha Hp Hd H1 H2) as Ho.
  apply run_outcome in Ho. rewrite Ho. by split_and!.
Qed.

Lemma run_completes_witness :
  let w := hosted_world example_environ ["registerSubdomain.py"; "alice"]
             accepting_server in
  (run w).2 = Normal tt ∧
  st_locals (run w).1 !! "response" = Some (VBool true).
Proof.
  intros w.
  destruct (run_completes w "alice" "https://dns.example.net/xmlrpc"
              (VStr "school.example") (VBool true) (VBool true))
    as (Hr & _ & _ & Hresp & _).
  - reflexivity.
  - reflexivity.
  - vm_compute. apply list_elem_of_further, list_elem_of_here.
  - reflexivity.
  - reflexivity.
  - reflexivity.
  - split; [exact Hr | exact Hresp].
Defined.

(** X3.  A run that ends normally has sent both requests: its trace is
    the [addSubdomain] invocation, the pause and the [addZoneRecord]
    invocation, and both were answered. *)
Theorem normal_end_sent_both w :
  (run w).2 = Normal tt →
  ∃ sub u d r1 r2,
    w_argv w !! 1%nat = Some sub ∧
    w_builtins w !! "domain" = Some d ∧
    st_trace (run w).1
      = [first_call w sub u d; ESleep 1; second_call w sub u d] ∧
    w_remote w [] u "addSubdomain"
      [setting w "DNS_API_USER"; setting w "DNS_API_PASS"; d; VStr sub]
      = inr r1 ∧
    w_remote w [first_call w sub u d; ESleep 1] u "addZoneRecord"
      [setting w "DNS_API_USER"; setting w "DNS_API_PASS"; d; VStr sub;
       VDict (record_obj (setting w "SCHOOL_IP_ADDRESS"))]
      = inr r2.
Proof.
  destruct (run w) as [s r] eqn:Hrun. apply run_outcome in Hrun.
  destruct Hrun as [Ha|sub e Ha Hp|sub u Ha Hp Hd|sub u d e Ha Hp Hd H1
                    |sub u d r1 e Ha Hp Hd H1 H2|sub u d r1 r2 Ha Hp Hd H1 H2];
    try discriminate.
  intros _. by exists sub, u, d, r1, r2.
Qed.

Lemma normal_end_sent_both_witness :
  let w := hosted_world example_environ ["registerSubdomain.py"; "alice"]
             accepting_server in
  ∃ sub u d,
    st_trace (run w).1
      = [first_call w sub u d; ESleep 1; second_call w sub u d].
Proof.
  intros w.
  destruct (normal_end_sent_both w) as (sub & u & d & _ & _ & _ & _ & Ht & _).
  - vm_compute. reflexivity.
  - by exists sub, u, d.
Defined.

(** X4.  [addZoneRecord] is invoked only after [addSubdomain] was answered:
    when it is in the trace, the first event of the trace is an
    [addSubdomain] invocation on the same URI that the server answered, and
    the arguments of [addZoneRecord] are those of [addSubdomain] followed
    by the record. *)
Theorem second_call_follows_answer w u args :
  ECall u "addZoneRecord" args ∈ st_trace (run w).1 →
  ∃ args1 r1 rec,
    st_trace (run w).1 !! 0%nat = Some (ECall u "addSubdomain" args1) ∧
    w_remote w [] u "addSubdomain" args1 = inr r1 ∧
    args = (args1 ++ [VDict rec])%list.
Proof.
  destruct (run w) as [s r] eqn:Hrun. apply run_outcome in Hrun.
  simpl. intros Hin.
  destruct Hrun as [Ha|sub e Ha Hp|sub u' Ha Hp Hd|sub u' d e Ha Hp Hd H1
                    |sub u' d r1 e Ha Hp Hd H1 H2
                    |sub u' d r1 r2 Ha Hp Hd H1 H2];
    simpl in Hin.
  - by apply elem_of_nil in Hin.
  - by apply elem_of_nil in Hin.
  - by apply elem_of_nil in Hin.
  - by apply list_elem_of_singleton in Hin.
  - apply elem_of_cons in Hin as [Hin|Hin]; [discriminate|].
    apply elem_of_cons in Hin as [Hin|Hin]; [discriminate|].
    apply list_elem_of_singleton in Hin. injection Hin as -> ->.
    by eexists _, r1, _.
  - apply elem_of_cons in Hin as [Hin|Hin]; [discriminate|].
    apply elem_of_cons in Hin as [Hin|Hin]; [discriminate|].
    apply list_elem_of_singleton in Hin. injection Hin as -> ->.
    by eexists _, r1, _.
Qed.

Lemma second_call_follows_answer_witness :
  let w := hosted_world example_environ ["registerSubdomain.py"; "alice"]
             garbling_server in
  let u := "https://dns.example.net/xmlrpc" in
  ∃ args1 r1,
    st_trace (run w).1 !! 0%nat = Some (ECall u "addSubdomain" args1) ∧
    w_remote w [] u "addSubdomain" args1 = inr r1.
Proof.
  intros w u.
  destruct (second_call_follows_answer w u
    [VStr "admin"; VStr "secret"; VStr "school.example"; VStr "alice";
     VDict (record_obj (VStr "192.0.2.10"))])
    as (args1 & r1 & rec & Hfirst & Hans & _).
  - vm_compute. do 2 apply list_elem_of_further. apply list_elem_of_here.
  - by exists args1, r1.
Defined.

(** X5.  Where a run can end with an exception: at line 19 with
    [IndexError] when there is no [sys.argv[1]]; at line 21 with what the
    constructor raised ([OSError], or whatever [urlsplit] raised on the
    URI); at line 22 with [NameError] for [domain]; or in the last
    invocation of the trace, with what the XML-RPC layer raised there.  In
    particular no local is read before it is bound and the proxy is never
    misused. *)
Theorem run_exceptions w e :
  (run w).2 = Raise e →
  (e = IndexError ∧ w_argv w !! 1%nat = None) ∨
  (ServerProxy_init (w_scheme w) (setting w "DNS_API_URI") "utf-8" = inl e ∧
   (e = OSError ∨
    ∃ u, effective_environ w !! "DNS_API_URI" = Some u ∧
         w_scheme w u = inl e)) ∨
  (e = NameError "domain" ∧ w_builtins w !! "domain" = None) ∨
  (∃ t u m args,
     st_trace (run w).1 = (t ++ [ECall u m args])%list ∧
     w_remote w t u m args = inl e).
Proof.
  destruct (run w) as [s r] eqn:Hrun. apply run_outcome in Hrun. simpl.
  destruct Hrun as [Ha|sub e' Ha Hp|sub u Ha Hp Hd|sub u d e' Ha Hp Hd H1
                    |sub u d r1 e' Ha Hp Hd H1 H2|sub u d r1 r2 Ha Hp Hd H1 H2];
    intros [= <-].
  - by left.
  - right; left. split; [done|].
    exact (ServerProxy_init_setting_inl _ _ _ _ Hp).
  - by right; right; left.
  - right; right; right. eexists [], u, "addSubdomain", _.
    split; [reflexivity | eassumption].
  - right; right; right.
    eexists [first_call w sub u d; ESleep 1], u, "addZoneRecord", _.
    split; [reflexivity | eassumption].
Qed.

Lemma run_exceptions_witness :
  let w := hosted_world example_environ ["registerSubdomain.py"; "alice"]
             garbling_server in
  ∃ t u m args,
    st_trace (run w).1 = (t ++ [ECall u m args])%list ∧
    w_remote w t u m args = inl ResponseError.
Proof.
  intros w.
  destruct (run_exceptions w ResponseError)
    as [[? _]|[[Hp _]|[[? _]|Hremote]]]; try discriminate.
  - vm_compute. reflexivity.
  - exact Hremote.
Defined.

(** X6.  Every invocation goes to the URI read from [DNS_API_URI], whose
    scheme is http or https; its method is [addSubdomain] or
    [addZoneRecord]; its third argument is what the name [domain]
    evaluates to; and at most two invocations are made in a run. *)
Theorem calls_go_to_configured_uri w u m args :
  ECall u m args ∈ st_trace (run w).1 →
  effective_environ w !! "DNS_API_URI" = Some u ∧
  w_scheme w u ∈ [inr "http"; inr "https"] ∧
  (m = "addSubdomain" ∨ m = "addZoneRecord") ∧
  args !! 2%nat = w_builtins w !! "domain" ∧
  (length (st_trace (run w).1) ≤ 3)%nat.
Proof.
  intros Hin.
  assert (length (st_trace (run w).1) ≤ 3)%nat as Hlen.
  { destruct (run_trace w) as [->|(? & ? & ? & _ & _ & _ & [-> | ->])];
      simpl; lia. }
  destruct (run w) as [s r] eqn:Hrun. apply run_outcome in Hrun.
  simpl in *.
  assert (∀ sub d,
    ServerProxy_init (w_scheme w) (setting w "DNS_API_URI") "utf-8"
      = inr (VProxy u "utf-8") →
    w_builtins w !! "domain" = Some d →
    ECall u m args = first_call w sub u d ∨
    ECall u m args = second_call w sub u d →
    effective_environ w !! "DNS_API_URI" = Some u ∧
    w_scheme w u ∈ [inr "http"; inr "https"] ∧
    (m = "addSubdomain" ∨ m = "addZoneRecord") ∧
    args !! 2%nat = w_builtins w !! "domain" ∧
    (length (st_trace s) ≤ 3)%nat) as Hcall.
  { intros sub d Hp Hd Hc.
    apply ServerProxy_init_inr in Hp as (u' & Hu & Hs & [= <-]).
    unfold setting, getenv_value in Hu.
    destruct (effective_environ w !! "DNS_API_URI") as [u''|] eqn:Henv;
      [|discriminate].
    injection Hu as ->.
    destruct Hc as [Hc|Hc]; injection Hc as -> ->; rewrite Hd; auto. }
  destruct Hrun as [Ha|sub e Ha Hp|sub u' Ha Hp Hd|sub u' d e Ha Hp Hd H1
                    |sub u' d r1 e Ha Hp Hd H1 H2
                    |sub u' d r1 r2 Ha Hp Hd H1 H2];
    simpl in Hin;
    try (by apply elem_of_nil in Hin).
  - apply list_elem_of_singleton in Hin.
    assert (u = u') as <- by (by injection Hin). eauto.
  - apply elem_of_cons in Hin as [Hin|Hin];
      [assert (u = u') as <- by (by injection Hin); eauto|].
    apply elem_of_cons in Hin as [Hin|Hin]; [discriminate|].
    apply list_elem_of_singleton in Hin.
    assert (u = u') as <- by (by injection Hin). eauto.
  - apply elem_of_cons in Hin as [Hin|Hin];
      [assert (u = u') as <- by (by injection Hin); eauto|].
    apply elem_of_cons in Hin as [Hin|Hin]; [discriminate|].
    apply list_elem_of_singleton in Hin.
    assert (u = u') as <- by (by injection Hin). eauto.
Qed.

Lemma calls_go_to_configured_uri_witness :
  let w := hosted_world example_environ ["registerSubdomain.py"; "alice"]
             accepting_server in
  let u := "https://dns.example.net/xmlrpc" in
  effective_environ w !! "DNS_API_URI" = Some u ∧
  w_scheme w u ∈ [inr "http"; inr "https"].
Proof.
  intros w u.
  destruct (calls_go_to_configured_uri w u "addSubdomain"
    [VStr "admin"; VStr "secret"; VStr "school.example"; VStr "alice"])
    as (Henv & Hs & _).
  - vm_compute. apply list_elem_of_here.
  - split; [exact Henv | exact Hs].
Defined.

(** X7.  A URI that [urlsplit] accepts but whose scheme is neither http
    nor https is refused by the constructor at line 21: the run ends with
    [OSError] after the argument was read, nothing is sent, and the exit
    status is 1. *)
Theorem unsupported_scheme_raises_OSError w sub u scheme :
  w_argv w !! 1%nat = Some sub →
  effective_environ w !! "DNS_API_URI" = Some u →
  w_scheme w u = inr scheme →
  scheme ∉ ["http"; "https"] →
  run w = (argument_state w sub, Raise OSError) ∧
  st_locals (run w).1 !! "client" = None ∧
  st_trace (run w).1 = [] ∧
  exit_status (run w).2 = 1.
Proof.
  intros Ha Hu Hsplit Hs.
  assert (run w = (argument_state w sub, Raise OSError)) as ->; [|done].
  apply run_outcome, proxy_rejected; [done|].
  unfold setting, getenv_value. rewrite Hu. simpl. rewrite Hsplit.
  by rewrite bool_decide_eq_false_2.
Qed.

Lemma unsupported_scheme_raises_OSError_witness :
  let w := hosted_world
             (<["DNS_API_URI" := "ftp://dns.example.net/"]> example_environ)
             ["registerSubdomain.py"; "alice"] accepting_server in
  run w = (argument_state w "alice", Raise OSError) ∧
  st_trace (run w).1 = [].
Proof.
  intros w.
  destruct (unsupported_scheme_raises_OSError w "alice"
              "ftp://dns.example.net/" "ftp") as (Hrun & _ & Ht & _).
  - reflexivity.
  - reflexivity.
  - reflexivity.
  - intros Hin.
    apply elem_of_cons in Hin as [Hin|Hin]; [discriminate|].
    apply elem_of_cons in Hin as [Hin|Hin]; [discriminate|].
    by apply elem_of_nil in Hin.
  - split; [exact Hrun | exact Ht].
Defined.

(** X12.  A URI on which [urlsplit] raises (a [ValueError] for a bracket
    without its partner, say) ends the run at line 21 with that exception,
    whatever its scheme: the argument was read, no client is bound,
    nothing is sent, and the exit status is 1. *)
Theorem malformed_uri_raises w sub u e :
  w_argv w !! 1%nat = Some sub →
  effective_environ w !! "DNS_API_URI" = Some u →
  w_scheme w u = inl e →
  run w = (argument_state w sub, Raise e) ∧
  st_locals (run w).1 !! "client" = None ∧
  st_trace (run w).1 = [] ∧
  exit_status (run w).2 = 1.
Proof.
  intros Ha Hu Hsplit.
  assert (run w = (argument_state w sub, Raise e)) as ->; [|done].
  apply run_outcome, proxy_rejected; [done|].
  unfold setting, getenv_value. rewrite Hu. simpl. by rewrite Hsplit.
Qed.

Lemma malformed_uri_raises_witness :
  let w := stock_world (<["DNS_API_URI" := "http://["]> example_environ)
             ["registerSubdomain.py"; "alice"] in
  run w = (argument_state w "alice", Raise ValueError) ∧
  st_trace (run w).1 = [].
Proof.
  intros w.
  destruct (malformed_uri_raises w "alice" "http://[" ValueError)
    as (Hrun & _ & Ht & _).
  - reflexivity.
  - reflexivity.
  - reflexivity.
  - split; [exact Hrun | exact Ht].
Defined.

(** ** What a run depends on *)

Lemma ServerProxy_init_ext f g uri enc :
  (∀ u, f u = g u) → ServerProxy_init f uri enc = ServerProxy_init g uri enc.
Proof. intros Hfg. destruct uri; simpl; by rewrite ?Hfg. Qed.

Lemma same_kind_inl x e : same_kind (inl e) x → x = inl e.
Proof. destruct x; simpl; [by intros ->|done]. Qed.

Lemma same_kind_inr x r : same_kind (inr r) x → ∃ r', x = inr r'.
Proof. destruct x; simpl; [done|eauto]. Qed.

(** Worlds that agree end their runs alike. *)
Lemma outcome_agree w w' s r :
  agree w w' → outcome w s r →
  ∃ s', outcome w' s' r ∧ st_trace s' = st_trace s.
Proof.
  intros (Ea & Eb & Eu & Epw & Ei & Euri & Es & Er1 & Er2) Ho.
  assert (∀ sub u d, first_call w' sub u d = first_call w sub u d) as Ef
    by (intros; unfold first_call; by rewrite Eu, Epw).
  assert (∀ sub u d, second_call w' sub u d = second_call w sub u d) as Eg
    by (intros; unfold second_call; by rewrite Eu, Epw, Ei).
  assert (ServerProxy_init (w_scheme w') (setting w' "DNS_API_URI") "utf-8"
          = ServerProxy_init (w_scheme w) (setting w "DNS_API_URI") "utf-8")
    as Ep by (rewrite Euri; by apply ServerProxy_init_ext).
  destruct Ho as [Ha|sub e Ha Hp|sub u Ha Hp Hd|sub u d e Ha Hp Hd H1
                  |sub u d r1 e Ha Hp Hd H1 H2|sub u d r1 r2 Ha Hp Hd H1 H2];
    rewrite <- Ea in Ha; try rewrite <- Ep in Hp; try rewrite <- Eb in Hd.
  - eexists. split; [by apply no_argument|done].
  - eexists. split; [by eapply proxy_rejected|done].
  - eexists. split; [by eapply domain_undefined|done].
  - pose proof (Er1 u [setting w "DNS_API_USER"; setting w "DNS_API_PASS";
                          d; VStr sub]) as Hk.
    rewrite H1 in Hk.
    apply same_kind_inl in Hk. rewrite <- Eu, <- Epw in Hk.
    eexists. split; [by eapply first_call_fails|].
    simpl. by rewrite Ef.
  - pose proof (Er1 u [setting w "DNS_API_USER"; setting w "DNS_API_PASS";
                          d; VStr sub]) as Hk.
    rewrite H1 in Hk.
    apply same_kind_inr in Hk as [r1' Hk]. rewrite <- Eu, <- Epw in Hk.
    rewrite <- Er2, <- Ef, <- Ei, <- Eu, <- Epw in H2.
    eexists. split; [by eapply (second_call_fails _ _ _ _ r1')|].
    simpl. by rewrite Ef, Eg.
  - pose proof (Er1 u [setting w "DNS_API_USER"; setting w "DNS_API_PASS";
                          d; VStr sub]) as Hk.
    rewrite H1 in Hk.
    apply same_kind_inr in Hk as [r1' Hk]. rewrite <- Eu, <- Epw in Hk.
    rewrite <- Er2, <- Ef, <- Ei, <- Eu, <- Epw in H2.
    eexists. split; [by eapply (both_calls_return _ _ _ _ r1')|].
    simpl. by rewrite Ef, Eg.
Qed.

Lemma run_agree w w' :
  agree w w' →
  st_trace (run w').1 = st_trace (run w).1 ∧ (run w').2 = (run w).2.
Proof.
  intros Hag. destruct (run w) as [s r] eqn:Hrun.
  apply run_outcome in Hrun.
  destruct (outcome_agree _ _ _ _ Hag Hrun) as (s' & Ho & Ht).
  apply run_outcome in Ho. by rewrite Ho.
Qed.

Lemma same_kind_refl x : same_kind x x.
Proof. by destruct x. Qed.

(** X8.  The value read from [DOMAIN_SUFFIX] is never used: two process
    environments that give the other variables the same values (after
    [load_dotenv]) lead to the same trace and the same result. *)
Theorem domain_suffix_is_unused w env :
  (∀ key, key ≠ "DOMAIN_SUFFIX" →
     (env ∪ w_dotenv w) !! key = effective_environ w !! key) →
  st_trace (run (with_environ env w)).1 = st_trace (run w).1 ∧
  (run (with_environ env w)).2 = (run w).2.
Proof.
  intros Henv. apply run_agree.
  assert (∀ key, key ≠ "DOMAIN_SUFFIX" →
            setting (with_environ env w) key = setting w key) as Hset.
  { intros key Hkey. unfold setting, getenv_value, effective_environ.
    simpl. by rewrite (Henv key Hkey). }
  unfold agree.
  split_and!; [done..| | | | | done | |done]; try by apply Hset.
  intros u a. apply same_kind_refl.
Qed.

Lemma domain_suffix_is_unused_witness :
  let w := hosted_world example_environ ["registerSubdomain.py"; "alice"]
             accepting_server in
  let env := <["DOMAIN_SUFFIX" := "other.example"]> example_environ in
  st_trace (run (with_environ env w)).1 = st_trace (run w).1 ∧
  (run (with_environ env w)).2 = (run w).2.
Proof.
  intros w env. apply (domain_suffix_is_unused w env).
  intros key Hkey. unfold effective_environ, env. simpl.
  rewrite !lookup_union, lookup_insert_ne by done. reflexivity.
Defined.

(** X9.  The answer of [addSubdomain] is never inspected: replacing the
    server by one that ends [addSubdomain] with the same exception or with
    any other answer, and [addZoneRecord] as before, changes neither the
    trace nor the result of the run. *)
Theorem first_answer_is_ignored w remote :
  (∀ u a, same_kind (w_remote w [] u "addSubdomain" a)
                    (remote [] u "addSubdomain" a)) →
  (∀ t u a, remote t u "addZoneRecord" a
            = w_remote w t u "addZoneRecord" a) →
  st_trace (run (with_remote remote w)).1 = st_trace (run w).1 ∧
  (run (with_remote remote w)).2 = (run w).2.
Proof.
  intros H1 H2. apply run_agree. unfold agree. by split_and!.
Qed.

Lemma first_answer_is_ignored_witness :
  let w := hosted_world example_environ ["registerSubdomain.py"; "alice"]
             accepting_server in
  st_trace (run (with_remote verbose_server w)).1 = st_trace (run w).1 ∧
  (run (with_remote verbose_server w)).2 = (run w).2.
Proof.
  intros w. apply (first_answer_is_ignored w verbose_server).
  - intros u a. exact I.
  - intros t u a. reflexivity.
Defined.

(** ** Settings from the [.env] file *)

(** X10.  Because [load_dotenv()] runs before the five [os.getenv] calls, a
    setting missing from the process environment is taken from the [.env]
    file, while a variable of the process environment keeps its value and
    is the one that is read. *)
Theorem dotenv_fills_unset_settings w x key :
  (x, key) ∈ settings_table →
  (∀ v, w_environ w !! key = Some v →
     st_locals (configured_state w) !! x = Some (VStr v)) ∧
  (∀ v, w_environ w !! key = None → w_dotenv w !! key = Some v →
     st_locals (configured_state w) !! x = Some (VStr v)) ∧
  (w_environ w !! key = None → w_dotenv w !! key = None →
     st_locals (configured_state w) !! x = Some VNone) ∧
  reaches w 6 (configured_state w).
Proof.
  intros Hx.
  assert (st_locals (configured_state w) !! x = Some (setting w key)) as ->.
  { unfold settings_table in Hx.
    repeat (apply elem_of_cons in Hx as [[= -> ->]|Hx]; [reflexivity|]).
    by apply elem_of_nil in Hx. }
  unfold setting, getenv_value, effective_environ.
  split_and!; [intros v Hv|intros v Hn Hv|intros Hn Hv|apply reaches_config].
  - by rewrite (lookup_union_Some_l _ _ _ _ Hv).
  - by rewrite lookup_union_r, Hv.
  - by rewrite lookup_union_r, Hv.
Qed.

Lemma dotenv_fills_unset_settings_witness :
  let w := {| w_environ := {[ "DNS_API_USER" := "admin" ]};
              w_dotenv := {[ "DNS_API_USER" := "other";
                             "DNS_API_PASS" := "secret" ]};
              w_argv := ["registerSubdomain.py"; "alice"];
              w_builtins := ∅;
              w_scheme := example_scheme;
              w_remote := accepting_server |} in
  st_locals (configured_state w) !! "global_api_username"
    = Some (VStr "admin") ∧
  st_locals (configured_state w) !! "global_api_password"
    = Some (VStr "secret").
Proof.
  intros w. split.
  - destruct (dotenv_fills_unset_settings w
                "global_api_username" "DNS_API_USER") as (Hset & _).
    + unfold settings_table. apply list_elem_of_here.
    + apply Hset. reflexivity.
  - destruct (dotenv_fills_unset_settings w
                "global_api_password" "DNS_API_PASS") as (_ & Hfile & _).
    + unfold settings_table. apply list_elem_of_further, list_elem_of_here.
    + apply Hfile; reflexivity.
Defined.

(** ** What [main] leaves alone *)

Lemma grows_refl s : grows s s.
Proof. by split_and!. Qed.

Lemma grows_trans s1 s2 s3 : grows s1 s2 → grows s2 s3 → grows s1 s3.
Proof.
  intros (Ht & He & Hl) (Ht' & He' & Hl'). split_and!.
  - by etrans.
  - by etrans.
  - intros x Hx. by rewrite Hl', Hl.
Qed.

Lemma grows_set_local x v s : x ∈ main_locals → grows s (set_local x v s).
Proof.
  intros Hx. split_and!; [done..|]. intros y Hy. simpl.
  apply lookup_insert_ne. by intros ->.
Qed.

Lemma grows_add_event e s : grows s (add_event e s).
Proof. split_and!; [by apply prefix_app_r|done..]. Qed.

Lemma preserves_ret {A} (a : A) : preserves (mret a).
Proof. intros w s s' r [= <- _]. apply grows_refl. Qed.

Lemma preserves_raise {A} e : preserves (@raise A e).
Proof. intros w s s' r [= <- _]. apply grows_refl. Qed.

Lemma preserves_ask : preserves ask.
Proof. intros w s s' r [= <- _]. apply grows_refl. Qed.

Lemma preserves_get : preserves get.
Proof. intros w s s' r [= <- _]. apply grows_refl. Qed.

Lemma preserves_modify f : (∀ s, grows s (f s)) → preserves (modify f).
Proof. intros Hf w s s' r [= <- _]. apply Hf. Qed.

Lemma preserves_bind {A B} (c : M A) (k : A → M B) :
  preserves c → (∀ a, preserves (k a)) → preserves (c ≫= k).
Proof.
  intros Hc Hk w s s' r. unfold mbind, M_bind.
  destruct (c w s) as [s1 [a|e]] eqn:Hcs.
  - intros Hks. eapply grows_trans; [by eapply Hc | by eapply Hk].
  - intros [= <- _]. by eapply Hc.
Qed.

Lemma preserves_lift {A} (x : exn + A) : preserves (lift x).
Proof. destruct x; [apply preserves_raise | apply preserves_ret]. Qed.

Ltac preserves_tac :=
  repeat first
    [ apply preserves_bind; [|intros ?]
    | apply preserves_ret | apply preserves_raise | apply preserves_ask
    | apply preserves_get | apply preserves_lift
    | apply preserves_modify; intros ?
    | apply grows_add_event
    | apply grows_set_local; unfold main_locals; set_solver
    | case_match ].

Lemma preserves_load_dotenv : preserves stmt_load_dotenv.
Proof.
  intros w s s' r. unfold stmt_load_dotenv, load_dotenv. unfold_monad.
  intros [= <- _]. split_and!; [done | apply map_union_subseteq_l | done].
Qed.

Lemma preserves_getenv x key :
  x ∈ main_locals → preserves (stmt_getenv x key).
Proof.
  intros Hx. unfold stmt_getenv, os_getenv, store_fast.
  apply preserves_bind; [preserves_tac|].
  intros v. apply preserves_modify. intros s. by apply grows_set_local.
Qed.

Lemma preserves_call f args : preserves (call f args).
Proof. unfold call, emit. preserves_tac. Qed.

Lemma preserves_main_body (c : M unit) : c ∈ main_body → preserves c.
Proof.
  unfold main_body. intros Hc.
  repeat (apply elem_of_cons in Hc as [->|Hc]);
    [apply preserves_load_dotenv
    |apply preserves_getenv; unfold main_locals; set_solver..
    | | | | | | |by apply elem_of_nil in Hc].
  - unfold stmt_subdomain, sys_argv, subscript, store_fast. preserves_tac.
  - unfold stmt_client, ServerProxy, load_fast, store_fast. preserves_tac.
  - unfold stmt_addSubdomain, load_fast, load_global, getattr, store_fast.
    preserves_tac; apply preserves_call.
  - unfold stmt_sleep, time_sleep, emit. preserves_tac.
  - unfold stmt_record_obj, load_fast, store_fast. preserves_tac.
  - unfold stmt_addZoneRecord, load_fast, load_global, getattr, store_fast.
    preserves_tac; apply preserves_call.
Qed.

Lemma preserves_block cs :
  (∀ c : M unit, c ∈ cs → preserves c) → preserves (block cs).
Proof.
  induction cs as [|c cs IH]; intros Hcs; simpl.
  - apply preserves_ret.
  - apply preserves_bind; [apply Hcs, list_elem_of_here|].
    intros _. apply IH. intros c' Hc'. by apply Hcs, list_elem_of_further.
Qed.

(** X11.  Called in any interpreter state, [main] only ever adds: the
    trace it leaves extends the one it found, every environment variable
    it found is still there with its value, and the only names it binds or
    rebinds are its nine locals. *)
Theorem main_only_extends w s :
  st_trace s `prefix_of` st_trace (main w s).1 ∧
  st_environ s ⊆ st_environ (main w s).1 ∧
  ∀ x, x ∉ main_locals →
       st_locals (main w s).1 !! x = st_locals s !! x.
Proof.
  destruct (main w s) as [s' r] eqn:Hrun.
  exact (preserves_block main_body preserves_main_body w s s' r Hrun).
Qed.
